(** * Tubely video backend: upload pipeline, aspect classification, URL signing

    A shallow embedding of the two upload handlers
    ([handler_upload_video.go], [handler_upload_thumbnail.go]) and of the
    asset helpers they call: [calculateAspectRatio],
    [processVideoForFastStart], [getVideoAspectRatio], [getObjectURL],
    [generatePresignedURL], [dbVideoToSignedVideo].

    Pure helpers are Rocq functions.  Go's [int] is a 64-bit integer: its
    product wraps around and its division truncates toward zero.  External
    collaborators (ffmpeg, ffprobe, the file system, S3, the database, the
    auth package) are records of outcomes; the handlers thread an explicit
    world (files on disk, observable events) and a stack of deferred calls. *)

From Stdlib Require Import ZArith Lia Ascii String.
From stdpp Require Import base strings list gmap.

Local Open Scope string_scope.
Local Open Scope Z_scope.

(** ** Go values *)

(** Go's [error] interface, by its message; [None] is [nil]. *)
Definition error := string.

(** Go's [int] on a 64-bit platform: results are reduced into
    [-2^63, 2^63). *)
Definition wrap64 (z : Z) : Z := (z + 2 ^ 63) mod 2 ^ 64 - 2 ^ 63.

Definition int_mul (a b : Z) : Z := wrap64 (a * b).

(** Go's [/] on integers truncates toward zero. *)
Definition int_div (a b : Z) : Z := wrap64 (Z.quot a b).

Definition newline : string := String (Ascii.ascii_of_nat 10) EmptyString.

(** ** [strings] package *)

(** [strings.Split(s, sep)] for a one-byte separator, which is what both
    call sites pass (["/"] and [","]).  The result is never empty:
    splitting the empty string gives one empty segment. *)
Fixpoint strings_Split (s : string) (sep : ascii) : list string :=
  match s with
  | EmptyString => [EmptyString]
  | String c rest =>
      if Ascii.eqb c sep then EmptyString :: strings_Split rest sep
      else match strings_Split rest sep with
           | seg :: segs => String c seg :: segs
           | [] => [String c EmptyString]
           end
  end.

(** Number of occurrences of a byte in a string. *)
Fixpoint count_byte (c : ascii) (s : string) : nat :=
  match s with
  | EmptyString => O
  | String d rest => ((if Ascii.eqb d c then 1 else 0) + count_byte c rest)%nat
  end.

Definition comma : ascii := ","%char.
Definition slash : ascii := "/"%char.

(** ** Asset helpers *)

(** Modelled from the spec: the record type [database.Video] is declared
    in [internal/database], outside the files embedded here.  It is the
    "VideoRecord" of the data model, with the fields the handlers read or
    write ([UserID], [ThumbnailURL], [VideoURL]) and the descriptive ones.
    A [*string] field is an [option string]; a UUID is its text. *)
Record Video := {
  ID : string;
  ThumbnailURL : option string;
  VideoURL : option string;
  Title : string;
  Description : string;
  UserID : string
}.

Definition set_VideoURL (url : option string) (v : Video) : Video :=
  {| ID := ID v; ThumbnailURL := ThumbnailURL v; VideoURL := url;
     Title := Title v; Description := Description v; UserID := UserID v |}.

Definition set_ThumbnailURL (url : option string) (v : Video) : Video :=
  {| ID := ID v; ThumbnailURL := url; VideoURL := VideoURL v;
     Title := Title v; Description := Description v; UserID := UserID v |}.

(** The S3 client, by what its two calls answer.
    [PutObject bucket key body contentType] and
    [PresignGetObject bucket key expires]; [body] is the open file that is
    streamed, by its path, or [None] for a nil [*os.File]; a duration is in
    nanoseconds. *)
Record S3Client := {
  PutObject : string -> string -> option string -> string -> option error;
  PresignGetObject : string -> string -> Z -> string * option error
}.

(** The database client, by what its two calls answer. *)
Record DBClient := {
  GetVideo : string -> Video * option error;
  UpdateVideo : Video -> option error
}.

(** Modelled from the spec: the struct [apiConfig] is declared in
    [main.go], outside the files embedded here; these are the fields the
    embedded code reads. *)
Record apiConfig := {
  db : DBClient;
  jwtSecret : string;
  assetsRoot : string;
  s3Client : S3Client;
  s3Bucket : string;
  s3Region : string;
  port : string
}.

(** [fmt.Sprintf("http://localhost:%s/assets/%s", cfg.port, assetPath)] *)
Definition getAssetURL (cfg : apiConfig) (assetPath : string) : string :=
  "http://localhost:" +:+ port cfg +:+ "/assets/" +:+ assetPath.

(** [fmt.Sprintf("https://%s.s3.%s.amazonaws.com/%s", cfg.s3Bucket, cfg.s3Region, key)] *)
Definition getObjectURL (cfg : apiConfig) (key : string) : string :=
  "https://" +:+ s3Bucket cfg +:+ ".s3." +:+ s3Region cfg
    +:+ ".amazonaws.com/" +:+ key.

Definition mediaTypeToExtension (mediaType : string) : string :=
  let parts := strings_Split mediaType slash in
  if negb (length parts =? 2)%nat then ".bin"
  else "." +:+ nth 1 parts EmptyString.

(** [id] stands for [base64.RawURLEncoding.EncodeToString] of the 32 bytes
    read from [crypto/rand]. *)
Definition generateRandomNameWithExtensionType (id mediaType : string) : string :=
  id +:+ mediaTypeToExtension mediaType.

(** [filepath.Join] of two elements.  Empty elements are ignored; the
    final [Clean] is the identity on the elements joined here (an aspect
    bucket and a base64url name with an extension). *)
Definition filepath_Join (a b : string) : string :=
  match a, b with
  | EmptyString, _ => b
  | _, EmptyString => a
  | _, _ => a +:+ "/" +:+ b
  end.

Definition calculateAspectRatio (width height : Z) : string :=
  if width =? int_div (int_mul 16 height) 9 then "landscape"
  else if height =? int_div (int_mul 16 width) 9 then "portrait"
  else "other".

(** ** Thumbnail handler constants *)

(** [const maxMemory int64 = 10 >> 20 // 10 MB] *)
Definition maxMemory : Z := Z.shiftr 10 20.

(** [const maxUploadLimit = 1 << 30 // 1GB] *)
Definition maxUploadLimit : Z := Z.shiftl 1 30.

(** ** The world a request runs in *)

(** Modelled from the spec: the type [thumbnail] and the global map
    [videoThumbnails] are declared outside the files embedded here (the
    "shared in-memory mapping keyed by video identifier"). *)
Record thumbnail := {
  data : string;
  mediaType : string
}.

(** What a request does that can be seen from outside, in order. *)
Inductive Event :=
  | EvRespondError (code : Z) (msg : string) (err : option error)
  | EvRespondJSON (code : Z) (payload : Video)
  | EvParseMultipartForm (budget : Z)
  | EvCreateTemp (path : string)
  | EvCopy (path : string) (written : Z)
  | EvSeek (path : string)
  | EvFfmpeg (input output : string)
  | EvFfprobe (path : string)
  | EvOpen (path : string)
  | EvPutObject (bucket key : string) (body : option string) (contentType : string)
  | EvUpdateVideo (v : Video)
  | EvClose (path : string)
  | EvRemove (path : string)
  | EvPanic (msg : string).

(** The files that the handlers and the tools they run create and remove,
    with their sizes; the thumbnail map; and the events so far (oldest
    first).  The spool files that the multipart reader of [net/http] keeps
    for the parts of a request are its own and are not tracked here, nor
    are the lines written to the log. *)
Record World := {
  files : gmap string Z;
  videoThumbnails : gmap string thumbnail;
  events : list Event
}.

Definition emit (e : Event) (w : World) : World :=
  {| files := files w; videoThumbnails := videoThumbnails w;
     events := events w ++ [e] |}.

Definition with_files (f : gmap string Z -> gmap string Z) (w : World) : World :=
  {| files := f (files w); videoThumbnails := videoThumbnails w;
     events := events w |}.

Definition with_thumbnails
    (f : gmap string thumbnail -> gmap string thumbnail) (w : World) : World :=
  {| files := files w; videoThumbnails := f (videoThumbnails w);
     events := events w |}.

(** What the environment answers to one request: the request itself, the
    auth package, the multipart reader, the operating system and the two
    external tools. *)
Record Env := {
  (* r.PathValue("videoID") *)
  pathValue_videoID : string;
  uuid_Parse : string -> string * option error;
  (* auth.GetBearerToken(r.Header) *)
  auth_GetBearerToken : string * option error;
  (* auth.ValidateJWT(token, secret) *)
  auth_ValidateJWT : string -> string -> string * option error;
  (* r.ParseMultipartForm(maxMemory) *)
  r_ParseMultipartForm : Z -> option error;
  (* r.FormFile(name): the bytes, the part's Content-Type header, the error *)
  r_FormFile : string -> string * string * option error;
  mime_ParseMediaType : string -> string * option error;
  io_ReadAll : string -> string * option error;
  (* os.CreateTemp with pattern "tubely-upload_*.mp4": the name chosen *)
  os_CreateTemp : string * option error;
  (* io.Copy(tempVidFile, file): bytes written *)
  io_Copy : Z * option error;
  file_Seek : option error;
  os_Open : string -> option error;
  (* a failure of os.Stat other than a missing file *)
  os_Stat_fault : string -> option error;
  (* cmd.Run() of ffmpeg: its error, its stderr, and the size of what it
     left at the output path, if anything *)
  ffmpeg_Run : string -> string -> option error * string * option Z;
  (* cmd.Run() of ffprobe: its error, its stderr, its stdout *)
  ffprobe_Run : string -> option error * string * string;
  (* json.Unmarshal of ffprobe's stdout: width and height of each stream *)
  json_Unmarshal : string -> list (Z * Z) * option error;
  (* rand.Read then base64.RawURLEncoding.EncodeToString *)
  rand_id : string * option error
}.

Definition notnil {A} (e : option A) : bool :=
  match e with Some _ => true | None => false end.

Definition errmsg (e : option error) : string :=
  match e with Some m => m | None => "<nil>" end.

(** ** File system calls *)

(** [os.Stat(path)]: the size, or an error when the file is missing or
    cannot be inspected. *)
Definition os_Stat (env : Env) (path : string) (w : World) : Z * option error :=
  match os_Stat_fault env path with
  | Some e => (0, Some e)
  | None =>
      match files w !! path with
      | Some size => (size, None)
      | None => (0, Some ("stat " +:+ path +:+ ": no such file or directory"))
      end
  end.

Definition os_Remove (path : string) (w : World) : World :=
  emit (EvRemove path) (with_files (delete path) w).

(** ** External tools *)

Definition processVideoForFastStart (env : Env) (inputFilePath : string) (w : World)
  : (string * option error) * World :=
  let faststartPath := inputFilePath +:+ ".processing" in
  let run := ffmpeg_Run env inputFilePath faststartPath in
  let w1 := emit (EvFfmpeg inputFilePath faststartPath)
              (with_files (fun fs => match run.2 with
                                     | Some size => <[faststartPath := size]> fs
                                     | None => fs
                                     end) w) in
  if notnil run.1.1 then
    ((EmptyString, Some ("ffmpeg error: " +:+ run.1.2 +:+ newline
                  +:+ "Command failed with: " +:+ errmsg run.1.1)), w1)
  else
    let fileInfo := os_Stat env faststartPath w1 in
    if notnil fileInfo.2 then
      ((EmptyString, Some ("couldn't stat processed file: " +:+ errmsg fileInfo.2)), w1)
    else if fileInfo.1 =? 0 then
      ((EmptyString, Some "processed file is empty"), w1)
    else ((faststartPath, None), w1).

Definition getVideoAspectRatio (env : Env) (filePath : string) (w : World)
  : (string * option error) * World :=
  let run := ffprobe_Run env filePath in
  let w1 := emit (EvFfprobe filePath) w in
  if notnil run.1.1 then
    ((EmptyString, Some ("ffprobe error: " +:+ run.1.2 +:+ newline
                  +:+ "Command failed with: " +:+ errmsg run.1.1)), w1)
  else
    let output := json_Unmarshal env run.2 in
    if notnil output.2 then
      ((EmptyString, Some ("couldn't parse ffprobe output: " +:+ errmsg output.2)), w1)
    else
      match output.1 with
      | [] => ((EmptyString, Some "no video streams found"), w1)
      | (width, height) :: _ => ((calculateAspectRatio width height, None), w1)
      end.

(** ** Presigned URLs *)

Definition time_Minute : Z := 60 * 1000000000.

Definition generatePresignedURL (c : S3Client) (bucket key : string) (expireTime : Z)
  : string * option error :=
  let presignReq := PresignGetObject c bucket key expireTime in
  if notnil presignReq.2 then
    (EmptyString, Some ("couldn't create presign URL " +:+ errmsg presignReq.2))
  else (presignReq.1, None).

Definition dbVideoToSignedVideo (cfg : apiConfig) (video : Video)
  : Video * option error :=
  match VideoURL video with
  | None => (video, None)
  | Some url =>
      let urlParts := strings_Split url comma in
      if (length urlParts <? 2)%nat then (video, None)
      else
        let bucket := nth 0 urlParts EmptyString in
        let key := nth 1 urlParts EmptyString in
        let signed := generatePresignedURL (s3Client cfg) bucket key (10 * time_Minute) in
        if notnil signed.2 then (video, signed.2)
        else (set_VideoURL (Some signed.1) video, None)
  end.

(** ** Handlers: state, early return and deferred calls *)

Inductive Deferred :=
  | DClose (path : string)
  | DRemove (path : string).

Definition run_deferred (d : Deferred) (w : World) : World :=
  match d with
  | DClose path => emit (EvClose path) w
  | DRemove path => os_Remove path w
  end.

(** The state of a running handler: the world and the stack of deferred
    calls, most recent first. *)
Record HState := {
  world : World;
  deferred : list Deferred
}.

(** A handler step either goes on with a value or executes [return]. *)
Definition Handler (A : Type) : Type := HState -> option A * HState.

Definition ret {A} (a : A) : Handler A := fun s => (Some a, s).

Definition return_ {A} : Handler A := fun s => (None, s).

Definition bind {A B} (m : Handler A) (k : A -> Handler B) : Handler B :=
  fun s => match m s with
           | (Some a, s1) => k a s1
           | (None, s1) => (None, s1)
           end.

Notation "x <- m ;; k" := (bind m (fun x => k))
  (at level 100, m at next level, right associativity).
Notation "m ;; k" := (bind m (fun _ => k))
  (at level 100, right associativity).

Definition when (b : bool) (m : Handler unit) : Handler unit :=
  if b then m else ret tt.

Definition act (f : World -> World) : Handler unit :=
  fun s => (Some tt, {| world := f (world s); deferred := deferred s |}).

Definition call {A} (f : World -> A * World) : Handler A :=
  fun s => let r := f (world s) in
           (Some r.1, {| world := r.2; deferred := deferred s |}).

Definition defer (d : Deferred) : Handler unit :=
  fun s => (Some tt, {| world := world s; deferred := d :: deferred s |}).

(** Deferred calls run when the function returns, last registered first. *)
Definition run_handler (body : Handler unit) (w : World) : World :=
  let s := (body {| world := w; deferred := [] |}).2 in
  fold_left (fun w d => run_deferred d w) (deferred s) (world s).

Definition StatusOK : Z := 200.
Definition StatusBadRequest : Z := 400.
Definition StatusUnauthorized : Z := 401.
Definition StatusInternalServerError : Z := 500.

Definition respondWithError (code : Z) (msg : string) (err : option error)
  : Handler unit :=
  act (emit (EvRespondError code msg err)).

Definition respondWithJSON (code : Z) (payload : Video) : Handler unit :=
  act (emit (EvRespondJSON code payload)).

Definition form_file_name : string := "<multipart file>".

(** [r.Body = http.MaxBytesReader(w, r.Body, maxUploadLimit)] bounds what
    the multipart reader can answer; it is part of [r_FormFile]. *)
Definition handlerUploadVideo (cfg : apiConfig) (env : Env) : Handler unit :=
  let videoIDString := pathValue_videoID env in
  let parsed := uuid_Parse env videoIDString in
  let videoID := parsed.1 in
  when (notnil parsed.2)
    (respondWithError StatusBadRequest "Invalid ID" parsed.2 ;; return_) ;;
  let bearer := auth_GetBearerToken env in
  let token := bearer.1 in
  when (notnil bearer.2)
    (respondWithError StatusUnauthorized "Couldn't find JWT" bearer.2) ;;
  let validated := auth_ValidateJWT env token (jwtSecret cfg) in
  let userID := validated.1 in
  when (notnil validated.2)
    (respondWithError StatusUnauthorized "Couldn't validate JWT" validated.2 ;; return_) ;;
  let got := GetVideo (db cfg) videoID in
  let video := got.1 in
  when (notnil got.2)
    (respondWithError StatusInternalServerError "Couldn't find video" got.2 ;; return_) ;;
  (* validate video ownership *)
  when (negb (String.eqb (UserID video) userID))
    (respondWithError StatusUnauthorized "Not authorized to update video" got.2) ;;
  (* handle video file *)
  let form := r_FormFile env "video" in
  let contentType := form.1.2 in
  when (notnil form.2)
    (respondWithError StatusBadRequest "Couldn't parse form file" form.2 ;; return_) ;;
  defer (DClose form_file_name) ;;
  let media := mime_ParseMediaType env contentType in
  let mediaType := media.1 in
  when (notnil media.2)
    (respondWithError StatusBadRequest "Invalid Content-Type" media.2 ;; return_) ;;
  when (negb (String.eqb mediaType "video/mp4"))
    (respondWithError StatusBadRequest "Invalid media type, only mp4 is supported" None ;;
     return_) ;;
  let temp := os_CreateTemp env in
  let tempVidFile := temp.1 in
  when (notnil temp.2)
    (respondWithError StatusInternalServerError "Issue creating temp file" temp.2 ;;
     return_) ;;
  act (fun w => emit (EvCreateTemp tempVidFile) (with_files <[tempVidFile := 0]> w)) ;;
  defer (DRemove tempVidFile) ;;
  defer (DClose tempVidFile) ;;
  let copied := io_Copy env in
  act (fun w => emit (EvCopy tempVidFile copied.1)
                  (with_files <[tempVidFile := copied.1]> w)) ;;
  when (notnil copied.2)
    (respondWithError StatusInternalServerError "Couldn't write file to disk" copied.2 ;;
     return_) ;;
  act (emit (EvSeek tempVidFile)) ;;
  when (notnil (file_Seek env))
    (respondWithError StatusInternalServerError "Couldn't reset file pointer" (file_Seek env) ;;
     return_) ;;
  (* process vid for fast start *)
  processed <- call (processVideoForFastStart env tempVidFile) ;;
  let processedFilePath := processed.1 in
  when (notnil processed.2)
    (respondWithError StatusInternalServerError "Couldn't process video" processed.2 ;;
     return_) ;;
  defer (DRemove processedFilePath) ;;
  let opened := os_Open env processedFilePath in
  let fastEncodedVid := if notnil opened then None else Some processedFilePath in
  act (emit (EvOpen processedFilePath)) ;;
  when (notnil opened)
    (respondWithError StatusInternalServerError "Couldn't open encoded file" opened) ;;
  defer (DClose processedFilePath) ;;
  (* handle video metadata *)
  aspect <- call (getVideoAspectRatio env tempVidFile) ;;
  let aspectRatio := aspect.1 in
  when (notnil aspect.2)
    (respondWithError StatusInternalServerError "Couldn't handle aspect ratio" aspect.2 ;;
     return_) ;;
  (* generate key for s3 with aspect ratio as prefix *)
  let random := rand_id env in
  when (notnil random.2)
    (act (emit (EvPanic "failed to generate random bytes")) ;; return_) ;;
  let key := generateRandomNameWithExtensionType random.1 mediaType in
  let key := filepath_Join aspectRatio key in
  (* Upload to S3 *)
  let put := PutObject (s3Client cfg) (s3Bucket cfg) key fastEncodedVid mediaType in
  act (emit (EvPutObject (s3Bucket cfg) key fastEncodedVid mediaType)) ;;
  when (notnil put)
    (respondWithError StatusInternalServerError "Issue uploading video to S3" put ;;
     return_) ;;
  let url := getObjectURL cfg key in
  let video := set_VideoURL (Some url) video in
  let updated := UpdateVideo (db cfg) video in
  act (emit (EvUpdateVideo video)) ;;
  when (notnil updated)
    (respondWithError StatusInternalServerError "Couldn't update video information" updated ;;
     return_) ;;
  respondWithJSON StatusOK video.

Definition handlerUploadThumbnail (cfg : apiConfig) (env : Env) : Handler unit :=
  let videoIDString := pathValue_videoID env in
  let parsed := uuid_Parse env videoIDString in
  let videoID := parsed.1 in
  when (notnil parsed.2)
    (respondWithError StatusBadRequest "Invalid ID" parsed.2 ;; return_) ;;
  let bearer := auth_GetBearerToken env in
  let token := bearer.1 in
  when (notnil bearer.2)
    (respondWithError StatusUnauthorized "Couldn't find JWT" bearer.2 ;; return_) ;;
  let validated := auth_ValidateJWT env token (jwtSecret cfg) in
  when (notnil validated.2)
    (respondWithError StatusUnauthorized "Couldn't validate JWT" validated.2 ;; return_) ;;
  (* fmt.Println("uploading thumbnail for video", videoID, "by user", userID):
     a line of the log, the one place where userID is read *)
  let parsedForm := r_ParseMultipartForm env maxMemory in
  act (emit (EvParseMultipartForm maxMemory)) ;;
  when (notnil parsedForm)
    (respondWithError StatusInternalServerError "Couldn't parse form data" parsedForm ;;
     return_) ;;
  let form := r_FormFile env "thumbnail" in
  when (notnil form.2)
    (respondWithError StatusBadRequest "Couldn't parse form file" form.2 ;; return_) ;;
  defer (DClose form_file_name) ;;
  let mediaType := form.1.2 in
  when (String.eqb mediaType EmptyString)
    (respondWithError StatusBadRequest "Missing Content-Type for thumbnail" None ;;
     return_) ;;
  let read := io_ReadAll env form.1.1 in
  let data := read.1 in
  when (notnil read.2)
    (respondWithError StatusInternalServerError "Couldn't read the file" read.2) ;;
  let got := GetVideo (db cfg) videoID in
  let video := got.1 in
  when (notnil got.2)
    (respondWithError StatusInternalServerError "Couldn't find video" got.2 ;; return_) ;;
  act (with_thumbnails <[videoID := {| data := data; mediaType := mediaType |}]>) ;;
  (* update database *)
  let url := "http://localhost:" +:+ port cfg +:+ "/api/thumbnails/" +:+ videoID in
  let video := set_ThumbnailURL (Some url) video in
  let updated := UpdateVideo (db cfg) video in
  act (emit (EvUpdateVideo video)) ;;
  when (notnil updated)
    (act (with_thumbnails (delete videoID)) ;;
     respondWithError StatusInternalServerError "Couldn't update video information" updated ;;
     return_) ;;
  respondWithJSON StatusOK video.

(** ** A concrete request *)

Module Sample.

Definition owner : string := "user-1".
Definition intruder : string := "user-2".

Definition video : Video :=
  {| ID := "video-1"; ThumbnailURL := None; VideoURL := None;
     Title := "Holiday"; Description := "Beach"; UserID := owner |}.

Definition s3 : S3Client :=
  {| PutObject := fun _ _ _ _ => None;
     PresignGetObject := fun bucket key _ =>
       ("https://signed.example/" +:+ bucket +:+ "/" +:+ key +:+ "?sig=1", None) |}.

(** An S3 client whose signing call fails. *)
Definition s3_unsigned : S3Client :=
  {| PutObject := fun _ _ _ _ => None;
     PresignGetObject := fun _ _ _ => (EmptyString, Some "no credentials") |}.

Definition database : DBClient :=
  {| GetVideo := fun _ => (video, None);
     UpdateVideo := fun _ => None |}.

Definition config (c : S3Client) : apiConfig :=
  {| db := database; jwtSecret := "secret"; assetsRoot := "./assets";
     s3Client := c; s3Bucket := "tubely"; s3Region := "us-east-2";
     port := "8091" |}.

Definition cfg : apiConfig := config s3.

Definition tmp : string := "/tmp/tubely-upload_1.mp4".

(** Every collaborator succeeds: [user] is the authenticated user, and
    ffmpeg leaves [out] at the output path. *)
Definition env_with (user : string) (run_err : option error) (out : option Z)
    (dims : Z * Z) : Env :=
  {| pathValue_videoID := "video-1";
     uuid_Parse := fun s => (s, None);
     auth_GetBearerToken := ("token", None);
     auth_ValidateJWT := fun _ _ => (user, None);
     r_ParseMultipartForm := fun _ => None;
     r_FormFile := fun name =>
       if String.eqb name "video" then ("mp4-bytes", "video/mp4", None)
       else ("png-bytes", "image/png", None);
     mime_ParseMediaType := fun s => (s, None);
     io_ReadAll := fun s => (s, None);
     os_CreateTemp := (tmp, None);
     io_Copy := (9, None);
     file_Seek := None;
     os_Open := fun _ => None;
     os_Stat_fault := fun _ => None;
     ffmpeg_Run := fun _ _ => (run_err, EmptyString, out);
     ffprobe_Run := fun _ => (None, EmptyString, "{}");
     json_Unmarshal := fun _ => ([dims], None);
     rand_id := ("abc123", None) |}.

Definition env : Env := env_with owner None (Some 9) (1920, 1080).

Definition empty_world : World :=
  {| files := ∅; videoThumbnails := ∅; events := [] |}.

End Sample.

(** ** Vocabulary of the statements *)

(** Follows the spec's words: "landscape if width == 16 * height / 9
    (integer division), portrait if height == 16 * width / 9, otherwise
    other", over unbounded integers with floor division. *)
Definition classify_by_floor_division (width height : Z) : string :=
  if width =? 16 * height / 9 then "landscape"
  else if height =? 16 * width / 9 then "portrait"
  else "other".

(** What [dbVideoToSignedVideo] answers once it signs [bucket] and [key]. *)
Definition signed_result (cfg : apiConfig) (video : Video) (bucket key : string)
  : Video * option error :=
  let signed := PresignGetObject (s3Client cfg) bucket key (10 * time_Minute) in
  match signed.2 with
  | Some e => (video, Some ("couldn't create presign URL " +:+ e))
  | None => (set_VideoURL (Some signed.1) video, None)
  end.

(** What one upload request works on, read off the environment. *)
Definition request_video (cfg : apiConfig) (env : Env) : Video :=
  (GetVideo (db cfg) (uuid_Parse env (pathValue_videoID env)).1).1.

Definition request_user (cfg : apiConfig) (env : Env) : string :=
  (auth_ValidateJWT env (auth_GetBearerToken env).1 (jwtSecret cfg)).1.

Definition staged_path (env : Env) : string := (os_CreateTemp env).1.

Definition transcoded_path (env : Env) : string :=
  staged_path env +:+ ".processing".

Definition probed_aspect (env : Env) : string :=
  match (json_Unmarshal env (ffprobe_Run env (staged_path env)).2).1 with
  | (width, height) :: _ => calculateAspectRatio width height
  | [] => EmptyString
  end.

Definition upload_key (env : Env) : string :=
  filepath_Join (probed_aspect env)
    (generateRandomNameWithExtensionType (rand_id env).1 "video/mp4").

Definition isnil {A} (e : option A) : bool := negb (notnil e).

(** Every step of the pipeline succeeds: each collaborator answers without
    an error, the part is an mp4, ffmpeg leaves a non-empty output file
    and ffprobe reports a stream.  Ownership is not part of it. *)
Definition upload_succeeds (cfg : apiConfig) (env : Env) : bool :=
  isnil (uuid_Parse env (pathValue_videoID env)).2
  && isnil (auth_GetBearerToken env).2
  && isnil (auth_ValidateJWT env (auth_GetBearerToken env).1 (jwtSecret cfg)).2
  && isnil (GetVideo (db cfg) (uuid_Parse env (pathValue_videoID env)).1).2
  && isnil (r_FormFile env "video").2
  && isnil (mime_ParseMediaType env (r_FormFile env "video").1.2).2
  && String.eqb (mime_ParseMediaType env (r_FormFile env "video").1.2).1 "video/mp4"
  && isnil (os_CreateTemp env).2
  && isnil (io_Copy env).2
  && isnil (file_Seek env)
  && isnil (ffmpeg_Run env (staged_path env) (transcoded_path env)).1.1
  && match (ffmpeg_Run env (staged_path env) (transcoded_path env)).2 with
     | Some size => negb (size =? 0)
     | None => false
     end
  && isnil (os_Stat_fault env (transcoded_path env))
  && isnil (os_Open env (transcoded_path env))
  && isnil (ffprobe_Run env (staged_path env)).1.1
  && isnil (json_Unmarshal env (ffprobe_Run env (staged_path env)).2).2
  && negb (length (json_Unmarshal env (ffprobe_Run env (staged_path env)).2).1 =? 0)%nat
  && isnil (rand_id env).2
  && isnil (PutObject (s3Client cfg) (s3Bucket cfg) (upload_key env)
              (Some (transcoded_path env)) "video/mp4")
  && isnil (UpdateVideo (db cfg)
              (set_VideoURL (Some (getObjectURL cfg (upload_key env)))
                 (request_video cfg env))).

(** The 401 written when the authenticated user is not the owner. *)
Definition ownership_response (cfg : apiConfig) (env : Env) : list Event :=
  if String.eqb (UserID (request_video cfg env)) (request_user cfg env) then []
  else [EvRespondError StatusUnauthorized "Not authorized to update video" None].

(** The events of the pipeline proper, from staging to cleanup. *)
Definition pipeline_events (cfg : apiConfig) (env : Env) : list Event :=
  let stored := set_VideoURL (Some (getObjectURL cfg (upload_key env)))
                  (request_video cfg env) in
  [ EvCreateTemp (staged_path env);
    EvCopy (staged_path env) (io_Copy env).1;
    EvSeek (staged_path env);
    EvFfmpeg (staged_path env) (transcoded_path env);
    EvOpen (transcoded_path env);
    EvFfprobe (staged_path env);
    EvPutObject (s3Bucket cfg) (upload_key env) (Some (transcoded_path env))
      "video/mp4";
    EvUpdateVideo stored;
    EvRespondJSON StatusOK stored;
    EvClose (transcoded_path env);
    EvRemove (transcoded_path env);
    EvClose (staged_path env);
    EvRemove (staged_path env);
    EvClose form_file_name ].

(** The records handed to [UpdateVideo], in order. *)
Definition db_updates (evs : list Event) : list Video :=
  flat_map (fun e => match e with EvUpdateVideo v => [v] | _ => [] end) evs.

(** The object-store PUTs, in order. *)
Definition s3_puts (evs : list Event) : list (string * string) :=
  flat_map (fun e => match e with
                     | EvPutObject bucket key _ _ => [(bucket, key)]
                     | _ => []
                     end) evs.

(** The two bands that integer division by 9 leaves around the exact
    ratios. *)
Definition landscape_band (width height : Z) : Prop :=
  9 * width <= 16 * height < 9 * width + 9.

Definition portrait_band (width height : Z) : Prop :=
  9 * height <= 16 * width < 9 * height + 9.

(** The sample request made by a user who does not own the video. *)
Definition intruder_env : Env :=
  Sample.env_with Sample.intruder None (Some 9) (1920, 1080).

(** ffmpeg reports success and leaves an empty output file. *)
Definition empty_output_env : Env :=
  Sample.env_with Sample.owner None (Some 0) (1920, 1080).

(** ffmpeg exits with an error after writing part of the output. *)
Definition failed_run_env : Env :=
  Sample.env_with Sample.owner (Some "exit status 1") (Some 5) (1920, 1080).

(** What is at <path>.processing once ffmpeg has run on [path]: what
    ffmpeg left there, or else what was there before. *)
Definition output_after_ffmpeg (env : Env) (path : string) (w : World) : option Z :=
  match (ffmpeg_Run env path (path +:+ ".processing")).2 with
  | Some size => Some size
  | None => files w !! (path +:+ ".processing")
  end.

(** The key that [handlerUploadVideo] builds for the object, from the
    aspect bucket and the random id. *)
Definition object_key (aspectRatio id : string) : string :=
  filepath_Join aspectRatio (generateRandomNameWithExtensionType id "video/mp4").

(** An event that answers the client. *)
Definition answers (e : Event) : bool :=
  match e with
  | EvRespondError _ _ _ | EvRespondJSON _ _ => true
  | _ => false
  end.

Definition panics (e : Event) : bool :=
  match e with
  | EvPanic _ => true
  | _ => false
  end.

(** The sample request with a WebM part. *)
Definition webm_env : Env :=
  {| pathValue_videoID := "video-1";
     uuid_Parse := fun s => (s, None);
     auth_GetBearerToken := ("token", None);
     auth_ValidateJWT := fun _ _ => (Sample.owner, None);
     r_ParseMultipartForm := fun _ => None;
     r_FormFile := fun _ => ("webm-bytes", "video/webm", None);
     mime_ParseMediaType := fun s => (s, None);
     io_ReadAll := fun s => (s, None);
     os_CreateTemp := (Sample.tmp, None);
     io_Copy := (9, None);
     file_Seek := None;
     os_Open := fun _ => None;
     os_Stat_fault := fun _ => None;
     ffmpeg_Run := fun _ _ => (None, EmptyString, Some 9);
     ffprobe_Run := fun _ => (None, EmptyString, "{}");
     json_Unmarshal := fun _ => ([(1920, 1080)], None);
     rand_id := ("abc123", None) |}.

(** A request without a bearer token, whose empty token does not validate,
    and a request whose video id does not parse. *)
Definition anonymous_env : Env :=
  {| pathValue_videoID := "video-1";
     uuid_Parse := fun s => (s, None);
     auth_GetBearerToken := (EmptyString, Some "no auth header included in request");
     auth_ValidateJWT := fun _ _ => (EmptyString, Some "token is malformed");
     r_ParseMultipartForm := fun _ => None;
     r_FormFile := fun _ => ("mp4-bytes", "video/mp4", None);
     mime_ParseMediaType := fun s => (s, None);
     io_ReadAll := fun s => (s, None);
     os_CreateTemp := (Sample.tmp, None);
     io_Copy := (9, None);
     file_Seek := None;
     os_Open := fun _ => None;
     os_Stat_fault := fun _ => None;
     ffmpeg_Run := fun _ _ => (None, EmptyString, Some 9);
     ffprobe_Run := fun _ => (None, EmptyString, "{}");
     json_Unmarshal := fun _ => ([(1920, 1080)], None);
     rand_id := ("abc123", None) |}.

Definition bad_id_env : Env :=
  {| pathValue_videoID := "not-a-uuid";
     uuid_Parse := fun _ => (EmptyString, Some "invalid UUID length: 10");
     auth_GetBearerToken := ("token", None);
     auth_ValidateJWT := fun _ _ => (Sample.owner, None);
     r_ParseMultipartForm := fun _ => None;
     r_FormFile := fun _ => ("mp4-bytes", "video/mp4", None);
     mime_ParseMediaType := fun s => (s, None);
     io_ReadAll := fun s => (s, None);
     os_CreateTemp := (Sample.tmp, None);
     io_Copy := (9, None);
     file_Seek := None;
     os_Open := fun _ => None;
     os_Stat_fault := fun _ => None;
     ffmpeg_Run := fun _ _ => (None, EmptyString, Some 9);
     ffprobe_Run := fun _ => (None, EmptyString, "{}");
     json_Unmarshal := fun _ => ([(1920, 1080)], None);
     rand_id := ("abc123", None) |}.

(** What the handler hands to [PutObject] as the body: the transcoded
    file when it opened, a nil file when it did not. *)
Definition put_body (env : Env) : option string :=
  if notnil (os_Open env (transcoded_path env)) then None
  else Some (transcoded_path env).

(** Every step up to the call of [PutObject] succeeds; whether the
    transcoded file opens is left open. *)
Definition upload_reaches_put (cfg : apiConfig) (env : Env) : bool :=
  isnil (uuid_Parse env (pathValue_videoID env)).2
  && isnil (auth_GetBearerToken env).2
  && isnil (auth_ValidateJWT env (auth_GetBearerToken env).1 (jwtSecret cfg)).2
  && isnil (GetVideo (db cfg) (uuid_Parse env (pathValue_videoID env)).1).2
  && isnil (r_FormFile env "video").2
  && isnil (mime_ParseMediaType env (r_FormFile env "video").1.2).2
  && String.eqb (mime_ParseMediaType env (r_FormFile env "video").1.2).1 "video/mp4"
  && isnil (os_CreateTemp env).2
  && isnil (io_Copy env).2
  && isnil (file_Seek env)
  && isnil (ffmpeg_Run env (staged_path env) (transcoded_path env)).1.1
  && match (ffmpeg_Run env (staged_path env) (transcoded_path env)).2 with
     | Some size => negb (size =? 0)
     | None => false
     end
  && isnil (os_Stat_fault env (transcoded_path env))
  && isnil (ffprobe_Run env (staged_path env)).1.1
  && isnil (json_Unmarshal env (ffprobe_Run env (staged_path env)).2).2
  && negb (length (json_Unmarshal env (ffprobe_Run env (staged_path env)).2).1 =? 0)%nat
  && isnil (rand_id env).2.

(** Every step up to and including the PUT succeeds; whether the record
    update succeeds is left open. *)
Definition upload_reaches_store (cfg : apiConfig) (env : Env) : bool :=
  upload_reaches_put cfg env
  && isnil (PutObject (s3Client cfg) (s3Bucket cfg) (upload_key env)
              (put_body env) "video/mp4").

(** The record that the upload hands to the database. *)
Definition stored_video (cfg : apiConfig) (env : Env) : Video :=
  set_VideoURL (Some (getObjectURL cfg (upload_key env))) (request_video cfg env).

(** The 500 written when the transcoded file does not open. *)
Definition open_response (env : Env) : list Event :=
  match os_Open env (transcoded_path env) with
  | Some e => [EvRespondError StatusInternalServerError
                 "Couldn't open encoded file" (Some e)]
  | None => []
  end.

(** The answer that follows the record update. *)
Definition update_response (cfg : apiConfig) (env : Env) : list Event :=
  match UpdateVideo (db cfg) (stored_video cfg env) with
  | Some e => [EvRespondError StatusInternalServerError
                 "Couldn't update video information" (Some e)]
  | None => [EvRespondJSON StatusOK (stored_video cfg env)]
  end.

(** What follows the call of [PutObject]: a 500 when it fails, the record
    update and its answer when it succeeds. *)
Definition put_response (cfg : apiConfig) (env : Env) : list Event :=
  match PutObject (s3Client cfg) (s3Bucket cfg) (upload_key env)
          (put_body env) "video/mp4" with
  | Some e => [EvRespondError StatusInternalServerError
                 "Issue uploading video to S3" (Some e)]
  | None => EvUpdateVideo (stored_video cfg env) :: update_response cfg env
  end.

(** The events of a run that reaches the call of [PutObject]. *)
Definition store_events (cfg : apiConfig) (env : Env) : list Event :=
  ([ EvCreateTemp (staged_path env);
     EvCopy (staged_path env) (io_Copy env).1;
     EvSeek (staged_path env);
     EvFfmpeg (staged_path env) (transcoded_path env);
     EvOpen (transcoded_path env) ]
   ++ open_response env
   ++ [ EvFfprobe (staged_path env);
        EvPutObject (s3Bucket cfg) (upload_key env) (put_body env) "video/mp4" ]
   ++ put_response cfg env
   ++ [ EvClose (transcoded_path env);
        EvRemove (transcoded_path env);
        EvClose (staged_path env);
        EvRemove (staged_path env);
        EvClose form_file_name ])%list.

(** The key of an object whose first probed stream has these dimensions. *)
Definition key_of_dimensions (env : Env) (width height : Z) : string :=
  calculateAspectRatio width height +:+ "/" +:+ (rand_id env).1 +:+ ".mp4".

(** The sample configuration over an S3 client that refuses a nil body. *)
Definition strict_cfg : apiConfig :=
  Sample.config
    {| PutObject := fun _ _ body _ =>
         match body with
         | Some _ => None
         | None => Some "invalid argument"
         end;
       PresignGetObject := fun _ _ _ => (EmptyString, Some "no credentials") |}.

(** The sample request on a machine where the transcoded file cannot be
    opened. *)
Definition unreadable_env : Env :=
  {| pathValue_videoID := "video-1";
     uuid_Parse := fun s => (s, None);
     auth_GetBearerToken := ("token", None);
     auth_ValidateJWT := fun _ _ => (Sample.owner, None);
     r_ParseMultipartForm := fun _ => None;
     r_FormFile := fun _ => ("mp4-bytes", "video/mp4", None);
     mime_ParseMediaType := fun s => (s, None);
     io_ReadAll := fun s => (s, None);
     os_CreateTemp := (Sample.tmp, None);
     io_Copy := (9, None);
     file_Seek := None;
     os_Open := fun _ => Some "permission denied";
     os_Stat_fault := fun _ => None;
     ffmpeg_Run := fun _ _ => (None, EmptyString, Some 9);
     ffprobe_Run := fun _ => (None, EmptyString, "{}");
     json_Unmarshal := fun _ => ([(1920, 1080)], None);
     rand_id := ("abc123", None) |}.

(** The sample configuration over a database that refuses updates. *)
Definition readonly_cfg : apiConfig :=
  {| db := {| GetVideo := fun _ => (Sample.video, None);
              UpdateVideo := fun _ => Some "database is locked" |};
     jwtSecret := "secret"; assetsRoot := "./assets";
     s3Client := Sample.s3; s3Bucket := "tubely"; s3Region := "us-east-2";
     port := "8091" |}.

(** What one thumbnail request works on. *)
Definition thumbnail_id (env : Env) : string :=
  (uuid_Parse env (pathValue_videoID env)).1.

Definition thumbnail_entry (env : Env) : thumbnail :=
  {| data := (io_ReadAll env (r_FormFile env "thumbnail").1.1).1;
     mediaType := (r_FormFile env "thumbnail").1.2 |}.

Definition thumbnail_url (cfg : apiConfig) (env : Env) : string :=
  "http://localhost:" +:+ port cfg +:+ "/api/thumbnails/" +:+ thumbnail_id env.

Definition thumbnail_video (cfg : apiConfig) (env : Env) : Video :=
  set_ThumbnailURL (Some (thumbnail_url cfg env))
    (GetVideo (db cfg) (thumbnail_id env)).1.

(** A thumbnail request whose body cannot be read to the end. *)
Definition truncated_env : Env :=
  {| pathValue_videoID := "video-1";
     uuid_Parse := fun s => (s, None);
     auth_GetBearerToken := ("token", None);
     auth_ValidateJWT := fun _ _ => (Sample.owner, None);
     r_ParseMultipartForm := fun _ => None;
     r_FormFile := fun _ => ("png-bytes", "image/png", None);
     mime_ParseMediaType := fun s => (s, None);
     io_ReadAll := fun _ => ("png", Some "unexpected EOF");
     os_CreateTemp := (Sample.tmp, None);
     io_Copy := (9, None);
     file_Seek := None;
     os_Open := fun _ => None;
     os_Stat_fault := fun _ => None;
     ffmpeg_Run := fun _ _ => (None, EmptyString, Some 9);
     ffprobe_Run := fun _ => (None, EmptyString, "{}");
     json_Unmarshal := fun _ => ([(1920, 1080)], None);
     rand_id := ("abc123", None) |}.

(** A world that already holds a thumbnail for the sample video. *)
Definition world_with_thumbnail : World :=
  {| files := ∅;
     videoThumbnails := {[ "video-1" := {| data := "old"; mediaType := "image/jpeg" |} ]};
     events := [] |}.

(** What holds at the end of a run, for the events [new] it added and the
    files [fs'] it left. *)
Definition upload_postcondition (cfg : apiConfig) (env : Env) (w : World)
    (new : list Event) (fs' : gmap string Z) : Prop :=
  (files w !! staged_path env = None -> fs' !! staged_path env = None)
  /\ (files w !! transcoded_path env = None ->
      fs' !! transcoded_path env <> None ->
      exists e, In (EvRespondError StatusInternalServerError
                      "Couldn't process video" e) new)
  /\ ((s3_puts new = [] /\ db_updates new = [])
      \/ exists width height more,
           (json_Unmarshal env (ffprobe_Run env (staged_path env)).2).1
           = (width, height) :: more
           /\ s3_puts new = [(s3Bucket cfg, upload_key env)]
           /\ (db_updates new = []
               \/ (PutObject (s3Client cfg) (s3Bucket cfg) (upload_key env)
                     (put_body env) "video/mp4" = None
                   /\ db_updates new = [stored_video cfg env])))
  /\ (forall v, In (EvRespondJSON StatusOK v) new ->
        UpdateVideo (db cfg) v = None /\ db_updates new = [v])
  /\ existsb answers new || existsb panics new = true.

(** What holds at the end of a thumbnail request, for the events [new] it
    added and the thumbnail map [th'] it left. *)
Definition thumbnail_postcondition (cfg : apiConfig) (env : Env) (w : World)
    (new : list Event) (th' : gmap string thumbnail) : Prop :=
  (forall id, id <> thumbnail_id env -> th' !! id = videoThumbnails w !! id)
  /\ (forall v, In (EvRespondJSON StatusOK v) new ->
        v = thumbnail_video cfg env
        /\ UpdateVideo (db cfg) v = None
        /\ th' !! thumbnail_id env = Some (thumbnail_entry env))
  /\ (forall v e, In (EvUpdateVideo v) new -> UpdateVideo (db cfg) v = Some e ->
        th' !! thumbnail_id env = None)
  /\ ((forall v, ~ In (EvUpdateVideo v) new) -> th' = videoThumbnails w)
  /\ existsb answers new = true.

(** ** Integer arithmetic of the aspect classifier *)

Lemma wrap64_small (z : Z) : - 2 ^ 63 <= z < 2 ^ 63 -> wrap64 z = z.
Proof.
  intros Hz. unfold wrap64. rewrite Z.mod_small; lia.
Qed.

Lemma int_mul_16_small (z : Z) : 0 <= z < 2 ^ 59 -> int_mul 16 z = 16 * z.
Proof.
  intros Hz. unfold int_mul. apply wrap64_small. lia.
Qed.

Lemma int_div_9_small (z : Z) : 0 <= z < 2 ^ 63 -> int_div z 9 = z / 9.
Proof.
  intros Hz. unfold int_div.
  rewrite Z.quot_div_nonneg by lia.
  apply wrap64_small.
  assert (0 <= z / 9) by (apply Z.div_pos; lia).
  assert (z / 9 <= z) by (apply Z.div_le_upper_bound; lia).
  lia.
Qed.

Lemma calculateAspectRatio_floor (width height : Z) :
  0 <= width < 2 ^ 59 -> 0 <= height < 2 ^ 59 ->
  calculateAspectRatio width height = classify_by_floor_division width height.
Proof.
  intros Hw Hh. unfold calculateAspectRatio, classify_by_floor_division.
  rewrite !int_mul_16_small by assumption.
  rewrite !int_div_9_small by lia.
  reflexivity.
Qed.

Lemma floor_band (a b : Z) : a = b / 9 <-> 9 * a <= b < 9 * a + 9.
Proof.
  split.
  - intros ->. pose proof (Z.div_mod b 9 ltac:(lia)).
    pose proof (Z.mod_pos_bound b 9 ltac:(lia)). lia.
  - intros H. apply Z.div_unique with (r := b - 9 * a); lia.
Qed.

(** ** Aspect classification *)

Section AspectRatio.

Variables width height : Z.
Hypothesis width_range : 0 <= width < 2 ^ 59.
Hypothesis height_range : 0 <= height < 2 ^ 59.

Lemma landscape_iff_band :
  calculateAspectRatio width height = "landscape" <-> landscape_band width height.
Proof using width_range height_range.
  rewrite calculateAspectRatio_floor by assumption.
  unfold classify_by_floor_division, landscape_band.
  rewrite <- floor_band.
  destruct (Z.eqb_spec width (16 * height / 9)) as [Hl | Hl].
  - tauto.
  - destruct (Z.eqb_spec height (16 * width / 9)); split;
      (discriminate || contradiction).
Qed.

Lemma portrait_iff_band :
  calculateAspectRatio width height = "portrait"
  <-> ~ landscape_band width height /\ portrait_band width height.
Proof using width_range height_range.
  rewrite calculateAspectRatio_floor by assumption.
  unfold classify_by_floor_division, landscape_band, portrait_band.
  rewrite <- !floor_band.
  destruct (Z.eqb_spec width (16 * height / 9)) as [Hl | Hl].
  - split; [discriminate | tauto].
  - destruct (Z.eqb_spec height (16 * width / 9)); split;
      (discriminate || tauto).
Qed.

Lemma other_iff_no_band :
  calculateAspectRatio width height = "other"
  <-> ~ landscape_band width height /\ ~ portrait_band width height.
Proof using width_range height_range.
  rewrite calculateAspectRatio_floor by assumption.
  unfold classify_by_floor_division, landscape_band, portrait_band.
  rewrite <- !floor_band.
  destruct (Z.eqb_spec width (16 * height / 9)) as [Hl | Hl].
  - split; [discriminate | tauto].
  - destruct (Z.eqb_spec height (16 * width / 9)); split;
      (discriminate || tauto).
Qed.

Lemma classify_cases :
  (width = 16 * height / 9 ->
     calculateAspectRatio width height = "landscape")
  /\ (width <> 16 * height / 9 -> height = 16 * width / 9 ->
        calculateAspectRatio width height = "portrait")
  /\ (width <> 16 * height / 9 -> height <> 16 * width / 9 ->
        calculateAspectRatio width height = "other").
Proof using width_range height_range.
  rewrite calculateAspectRatio_floor by assumption.
  unfold classify_by_floor_division.
  destruct (Z.eqb_spec width (16 * height / 9));
    destruct (Z.eqb_spec height (16 * width / 9));
    repeat split; intros; (reflexivity || contradiction).
Qed.

End AspectRatio.

(** C5 (as amended).  Classification is integer-division equality, a
    band of one unit rather than exact ratio equality: for dimensions
    in [0, 2^59) a pair is "landscape" exactly when
    9*width <= 16*height < 9*width + 9, "portrait" exactly when it is
    not landscape and 9*height <= 16*width < 9*height + 9, and "other"
    exactly when it is in neither band.  Every exact 16:9 pair is
    landscape and every exact 9:16 pair of positive width is portrait. *)
Theorem calculateAspectRatio_band (width height : Z) :
  0 <= width < 2 ^ 59 -> 0 <= height < 2 ^ 59 ->
  (calculateAspectRatio width height = "landscape"
     <-> 9 * width <= 16 * height < 9 * width + 9)
  /\ (calculateAspectRatio width height = "portrait"
        <-> ~ (9 * width <= 16 * height < 9 * width + 9)
            /\ 9 * height <= 16 * width < 9 * height + 9)
  /\ (calculateAspectRatio width height = "other"
        <-> ~ (9 * width <= 16 * height < 9 * width + 9)
            /\ ~ (9 * height <= 16 * width < 9 * height + 9))
  /\ (9 * width = 16 * height ->
        calculateAspectRatio width height = "landscape")
  /\ (9 * height = 16 * width -> 0 < width ->
        calculateAspectRatio width height = "portrait").
Proof.
  intros Hw Hh.
  pose proof (landscape_iff_band width height Hw Hh) as Hl.
  pose proof (portrait_iff_band width height Hw Hh) as Hp.
  pose proof (other_iff_no_band width height Hw Hh) as Ho.
  unfold landscape_band, portrait_band in *.
  repeat split; try tauto.
  - intros Heq. apply Hl. lia.
  - intros Heq Hpos. apply Hp. lia.
Qed.

(** C6 (as amended).  On dimensions in [0, 2^59), where Go's wrapping
    product and truncating division agree with exact arithmetic and
    floor division, the classifier returns "landscape" when
    width == 16*height/9, "portrait" for the remaining pairs with
    height == 16*width/9, and "other" for all other pairs; so it is the
    classification by floor division there.  1920x1080 is landscape,
    1080x1920 is portrait and 1920x1081 is other. *)
Theorem calculateAspectRatio_integer_division (width height : Z) :
  0 <= width < 2 ^ 59 -> 0 <= height < 2 ^ 59 ->
  (width = 16 * height / 9 ->
     calculateAspectRatio width height = "landscape")
  /\ (width <> 16 * height / 9 -> height = 16 * width / 9 ->
        calculateAspectRatio width height = "portrait")
  /\ (width <> 16 * height / 9 -> height <> 16 * width / 9 ->
        calculateAspectRatio width height = "other")
  /\ calculateAspectRatio width height
     = classify_by_floor_division width height
  /\ calculateAspectRatio 1920 1080 = "landscape"
  /\ calculateAspectRatio 1080 1920 = "portrait"
  /\ calculateAspectRatio 1920 1081 = "other".
Proof.
  intros Hw Hh.
  destruct (classify_cases width height Hw Hh) as (Hl & Hp & Ho).
  repeat split; try assumption; try reflexivity.
  apply calculateAspectRatio_floor; assumption.
Qed.

(** C5, witness: 1920x1080 is in range and in the landscape band. *)
Lemma calculateAspectRatio_band_witness :
  0 <= 1920 < 2 ^ 59 /\ 0 <= 1080 < 2 ^ 59
  /\ (calculateAspectRatio 1920 1080 = "landscape"
        <-> 9 * 1920 <= 16 * 1080 < 9 * 1920 + 9).
Proof.
  split; [lia | split; [lia |]].
  exact (proj1 (calculateAspectRatio_band 1920 1080 ltac:(lia) ltac:(lia))).
Defined.

(** C5, counterexample: 1921x1081 is not an exact 16:9 ratio, and is
    classified "landscape" all the same. *)
Lemma calculateAspectRatio_not_exact :
  ~ (9 * 1921 <> 16 * 1081 -> calculateAspectRatio 1921 1081 <> "landscape").
Proof.
  intros H. apply H; [lia | reflexivity].
Qed.

(** C6, witness: 1080x1920 is in range, fails the landscape test and
    passes the portrait test. *)
Lemma calculateAspectRatio_integer_division_witness :
  0 <= 1080 < 2 ^ 59 /\ 0 <= 1920 < 2 ^ 59
  /\ calculateAspectRatio 1080 1920 = "portrait".
Proof.
  split; [lia | split; [lia |]].
  apply (proj1 (proj2
           (calculateAspectRatio_integer_division 1080 1920 ltac:(lia) ltac:(lia)))).
  - vm_compute. discriminate.
  - reflexivity.
Defined.

(** C6, counterexample: Go's division truncates toward zero, so for the
    pair (-1, -1) the test [width == 16*height/9] compares -1 with -1 and
    the pair is "landscape"; under floor division 16*(-1)/9 is -2 and the
    pair would be "other". *)
Lemma calculateAspectRatio_not_floor :
  -1 <> 16 * -1 / 9
  /\ classify_by_floor_division (-1) (-1) = "other"
  /\ calculateAspectRatio (-1) (-1) = "landscape".
Proof.
  split; [| split]; [vm_compute; discriminate | reflexivity | reflexivity].
Qed.

(** ** Form memory budget *)

(** C4.  The constant handed to the form parser is [10 >> 20], which is
    0 and not 10 * 2^20 = 10485760; the sample thumbnail request parses
    its form with a budget of 0 bytes. *)
Theorem maxMemory_is_zero :
  maxMemory = 0
  /\ maxMemory <> 10 * 2 ^ 20
  /\ 10 * 2 ^ 20 = 10485760
  /\ hd_error (events (run_handler (handlerUploadThumbnail Sample.cfg Sample.env)
                         Sample.empty_world))
     = Some (EvParseMultipartForm 0).
Proof.
  repeat split; try reflexivity. vm_compute. discriminate.
Qed.

(** ** Splitting on a byte *)

Lemma strings_Split_length (s : string) (c : ascii) :
  length (strings_Split s c) = S (count_byte c s).
Proof.
  induction s as [| d s IH]; simpl; [reflexivity |].
  destruct (Ascii.eqb d c); simpl.
  - now rewrite IH.
  - destruct (strings_Split s c) as [| seg segs]; simpl in *; congruence.
Qed.

Lemma strings_Split_no_sep (s : string) (c : ascii) :
  count_byte c s = O -> strings_Split s c = [s].
Proof.
  induction s as [| d s IH]; simpl; [reflexivity |].
  destruct (Ascii.eqb d c); simpl; [discriminate |].
  intros H. now rewrite IH.
Qed.

Lemma strings_Split_app (a b : string) (c : ascii) :
  count_byte c a = O ->
  strings_Split (a +:+ String c b) c = a :: strings_Split b c.
Proof.
  induction a as [| d a IH]; simpl.
  - intros _. now rewrite Ascii.eqb_refl.
  - destruct (Ascii.eqb d c); simpl; [discriminate |].
    intros H. now rewrite IH.
Qed.

Lemma count_byte_first (s : string) (c : ascii) :
  count_byte c s <> O ->
  exists a b, s = a +:+ String c b
              /\ count_byte c a = O
              /\ count_byte c s = S (count_byte c b).
Proof.
  induction s as [| d s IH]; simpl; [congruence |].
  destruct (Ascii.eqb_spec d c) as [-> | Hd]; simpl.
  - intros _. exists EmptyString, s. auto.
  - intros H. destruct (IH H) as (a & b & -> & Ha & Hb).
    exists (String d a), b. simpl.
    destruct (Ascii.eqb_spec d c); [contradiction |]. auto.
Qed.

(** ** Expanding the persisted URL *)

(** C8.  A video whose VideoURL is nil, or holds a value without a comma,
    comes back unchanged and without an error. *)
Theorem dbVideoToSignedVideo_unsigned (cfg : apiConfig) (video : Video) :
  (VideoURL video = None
   \/ exists url, VideoURL video = Some url /\ count_byte comma url = O) ->
  dbVideoToSignedVideo cfg video = (video, None).
Proof.
  unfold dbVideoToSignedVideo.
  intros [-> | (url & -> & Hno)]; [reflexivity |].
  now rewrite strings_Split_no_sep.
Qed.

(** C8, witness: a record whose VideoURL is a plain URL without a comma. *)
Lemma dbVideoToSignedVideo_unsigned_witness :
  (VideoURL (set_VideoURL (Some "https://cdn.example/v.mp4") Sample.video) = None
   \/ exists url,
        VideoURL (set_VideoURL (Some "https://cdn.example/v.mp4") Sample.video)
        = Some url /\ count_byte comma url = O)
  /\ dbVideoToSignedVideo Sample.cfg
       (set_VideoURL (Some "https://cdn.example/v.mp4") Sample.video)
     = (set_VideoURL (Some "https://cdn.example/v.mp4") Sample.video, None).
Proof.
  assert (H : VideoURL (set_VideoURL (Some "https://cdn.example/v.mp4") Sample.video)
              = None
              \/ exists url,
                   VideoURL (set_VideoURL (Some "https://cdn.example/v.mp4")
                               Sample.video) = Some url
                   /\ count_byte comma url = O).
  { right. exists "https://cdn.example/v.mp4". split; reflexivity. }
  split; [exact H |].
  exact (dbVideoToSignedVideo_unsigned Sample.cfg _ H).
Defined.

Lemma dbVideoToSignedVideo_signs (cfg : apiConfig) (video : Video)
    (url bucket key : string) (rest : list string) :
  VideoURL video = Some url ->
  strings_Split url comma = bucket :: key :: rest ->
  dbVideoToSignedVideo cfg video = signed_result cfg video bucket key.
Proof.
  intros Hurl Hsplit.
  unfold dbVideoToSignedVideo, signed_result, generatePresignedURL.
  rewrite Hurl, Hsplit. simpl.
  destruct (PresignGetObject (s3Client cfg) bucket key (10 * time_Minute))
    as [u [e |]]; reflexivity.
Qed.

(** C9.  A VideoURL with two or more commas reads
    bucket "," key "," rest, where bucket and key hold no comma; the
    bucket and the key are what is signed, and the result does not depend
    on rest. *)
Theorem dbVideoToSignedVideo_first_two_segments
    (cfg : apiConfig) (video : Video) (url : string) :
  VideoURL video = Some url ->
  (2 <= count_byte comma url)%nat ->
  exists bucket key rest,
    url = bucket +:+ String comma (key +:+ String comma rest)
    /\ count_byte comma bucket = O
    /\ count_byte comma key = O
    /\ strings_Split url comma = bucket :: key :: strings_Split rest comma
    /\ dbVideoToSignedVideo cfg video = signed_result cfg video bucket key.
Proof.
  intros Hurl Hcount.
  destruct (count_byte_first url comma) as (bucket & tail & -> & Hb & Hc1); [lia |].
  destruct (count_byte_first tail comma) as (key & rest & -> & Hk & Hc2); [lia |].
  assert (Hsplit : strings_Split (bucket +:+ String comma (key +:+ String comma rest))
                     comma
                   = bucket :: key :: strings_Split rest comma).
  { rewrite strings_Split_app by assumption.
    now rewrite strings_Split_app by assumption. }
  exists bucket, key, rest. repeat split; try assumption.
  eapply dbVideoToSignedVideo_signs; eassumption.
Qed.

(** C9, witness: the value "a,b,c" of the claim. *)
Lemma dbVideoToSignedVideo_first_two_segments_witness :
  exists bucket key rest,
    "a,b,c" = bucket +:+ String comma (key +:+ String comma rest)
    /\ count_byte comma bucket = O
    /\ count_byte comma key = O
    /\ strings_Split "a,b,c" comma = bucket :: key :: strings_Split rest comma
    /\ dbVideoToSignedVideo Sample.cfg (set_VideoURL (Some "a,b,c") Sample.video)
       = signed_result Sample.cfg (set_VideoURL (Some "a,b,c") Sample.video)
           bucket key.
Proof.
  apply (dbVideoToSignedVideo_first_two_segments Sample.cfg
           (set_VideoURL (Some "a,b,c") Sample.video) "a,b,c").
  - reflexivity.
  - vm_compute. lia.
Defined.

(** C10.  When the signing call is reached and fails, the video comes
    back as it was given, with the error. *)
Theorem dbVideoToSignedVideo_sign_error
    (cfg : apiConfig) (video : Video) (url : string) (e : error) :
  VideoURL video = Some url ->
  (1 <= count_byte comma url)%nat ->
  (PresignGetObject (s3Client cfg)
     (nth 0 (strings_Split url comma) EmptyString) (nth 1 (strings_Split url comma) EmptyString)
     (10 * time_Minute)).2 = Some e ->
  dbVideoToSignedVideo cfg video
  = (video, Some ("couldn't create presign URL " +:+ e)).
Proof.
  intros Hurl Hcount Hsign.
  pose proof (strings_Split_length url comma) as Hlen.
  destruct (strings_Split url comma) as [| bucket [| key rest]] eqn:Hsplit;
    simpl in Hlen; try lia.
  rewrite (dbVideoToSignedVideo_signs cfg video url bucket key rest Hurl Hsplit).
  unfold signed_result. simpl in Hsign. now rewrite Hsign.
Qed.

(** C10, witness: a client without credentials and a well-formed pair. *)
Lemma dbVideoToSignedVideo_sign_error_witness :
  dbVideoToSignedVideo (Sample.config Sample.s3_unsigned)
    (set_VideoURL (Some "tubely,landscape/abc123.mp4") Sample.video)
  = (set_VideoURL (Some "tubely,landscape/abc123.mp4") Sample.video,
     Some "couldn't create presign URL no credentials").
Proof.
  apply (dbVideoToSignedVideo_sign_error (Sample.config Sample.s3_unsigned)
           (set_VideoURL (Some "tubely,landscape/abc123.mp4") Sample.video)
           "tubely,landscape/abc123.mp4" "no credentials").
  - reflexivity.
  - vm_compute. lia.
  - reflexivity.
Defined.

(** ** Fast-start transcoding *)

(** C7.  [processVideoForFastStart] returns an error exactly when ffmpeg's
    run fails, the output file cannot be stat'ed afterwards (the stat
    itself fails, or nothing is at <path>.processing once ffmpeg has run),
    or the output file is empty; then the path returned is empty.  In every
    other case it returns <path>.processing and no error.  The conditions
    are read off what ffmpeg and the file system did, not off the result. *)
Theorem processVideoForFastStart_error_iff
    (env : Env) (path : string) (w : World) :
  let out := path +:+ ".processing" in
  let run_err := (ffmpeg_Run env path out).1.1 in
  let on_disk := output_after_ffmpeg env path w in
  let r := processVideoForFastStart env path w in
  (r.1.2 <> None
     <-> run_err <> None
         \/ (os_Stat_fault env out <> None \/ on_disk = None)
         \/ on_disk = Some 0)
  /\ (r.1.2 <> None -> r.1.1 = EmptyString)
  /\ (run_err = None -> os_Stat_fault env out = None ->
      forall size, on_disk = Some size -> size <> 0 ->
      r.1 = (out, None))
  /\ files r.2 !! out = on_disk.
Proof.
  cbv zeta. unfold processVideoForFastStart, os_Stat, output_after_ffmpeg.
  destruct (ffmpeg_Run env path (path +:+ ".processing")) as [[run_err stderr] left].
  cbn [fst snd emit with_files files].
  assert (Hdisk : (match left with
                   | Some size => <[path +:+ ".processing" := size]> (files w)
                   | None => files w
                   end) !! (path +:+ ".processing")
                  = match left with
                    | Some size => Some size
                    | None => files w !! (path +:+ ".processing")
                    end).
  { destruct left; [apply lookup_insert_eq | reflexivity]. }
  rewrite Hdisk.
  set (on_disk := match left with
                  | Some size => Some size
                  | None => files w !! (path +:+ ".processing")
                  end) in *.
  destruct run_err as [e |]; cbn [notnil fst snd files].
  { repeat split; try congruence; auto. }
  destruct (os_Stat_fault env (path +:+ ".processing")) as [e |];
    cbn [notnil fst snd files].
  { repeat split; try congruence; auto. }
  destruct on_disk as [size |]; cbn [notnil fst snd files].
  - destruct (Z.eqb_spec size 0) as [-> | Hsize]; cbn [fst snd files].
    + repeat split; try congruence; auto.
    + repeat split; try congruence;
        try (intros [H | [[H | H] | H]]; congruence);
        cbn [files emit with_files]; exact Hdisk.
  - repeat split; try congruence; auto.
Qed.

(** ** The upload pipeline, step by step *)

Ltac split_succeeds H :=
  repeat match type of H with
         | (_ && _) = true =>
             let H1 := fresh "Hok" in
             apply andb_prop in H; destruct H as [H H1]
         end.

Lemma isnil_None {A} (e : option A) : isnil e = true -> e = None.
Proof. destruct e; [discriminate | reflexivity]. Qed.

Lemma processVideoForFastStart_ok (env : Env) (path : string) (w : World) (size : Z) :
  (ffmpeg_Run env path (path +:+ ".processing")).1.1 = None ->
  (ffmpeg_Run env path (path +:+ ".processing")).2 = Some size ->
  size <> 0 ->
  os_Stat_fault env (path +:+ ".processing") = None ->
  processVideoForFastStart env path w
  = ((path +:+ ".processing", None),
     emit (EvFfmpeg path (path +:+ ".processing"))
       (with_files <[path +:+ ".processing" := size]> w)).
Proof.
  intros Hrun Hleft Hsize Hfault. unfold processVideoForFastStart, os_Stat.
  rewrite Hrun, Hleft, Hfault. cbn [notnil emit with_files files].
  rewrite lookup_insert_eq. cbn [notnil fst snd].
  destruct (Z.eqb_spec size 0); [contradiction | reflexivity].
Qed.

Lemma getVideoAspectRatio_ok (env : Env) (path : string) (w : World) :
  (ffprobe_Run env path).1.1 = None ->
  (json_Unmarshal env (ffprobe_Run env path).2).2 = None ->
  (json_Unmarshal env (ffprobe_Run env path).2).1 <> [] ->
  getVideoAspectRatio env path w
  = ((match (json_Unmarshal env (ffprobe_Run env path).2).1 with
      | (width, height) :: _ => calculateAspectRatio width height
      | [] => EmptyString
      end, None), emit (EvFfprobe path) w).
Proof.
  intros Hrun Hjson Hstreams. unfold getVideoAspectRatio.
  rewrite Hrun, Hjson. cbn [notnil].
  destruct (json_Unmarshal env (ffprobe_Run env path).2).1 as [| [width height] more];
    [contradiction | reflexivity].
Qed.

(** A run in which every step succeeds: the final world. *)
Lemma handlerUploadVideo_success_world (cfg : apiConfig) (env : Env) (w : World) :
  upload_succeeds cfg env = true ->
  exists size,
    (ffmpeg_Run env (staged_path env) (transcoded_path env)).2 = Some size
    /\ run_handler (handlerUploadVideo cfg env) w
       = {| files :=
              delete (staged_path env)
                (delete (transcoded_path env)
                   (<[transcoded_path env := size]>
                      (<[staged_path env := (io_Copy env).1]>
                         (<[staged_path env := 0]> (files w)))));
            videoThumbnails := videoThumbnails w;
            events := events w ++ ownership_response cfg env
                        ++ pipeline_events cfg env |}.
Proof.
  intros H. unfold upload_succeeds in H. split_succeeds H.
  repeat match goal with
         | Hx : isnil _ = true |- _ => apply isnil_None in Hx
         end.
  unfold ownership_response, pipeline_events, upload_key, probed_aspect,
    transcoded_path, staged_path, request_video, request_user in *.
  apply String.eqb_eq in Hok12.
  destruct (ffmpeg_Run env (os_CreateTemp env).1 ((os_CreateTemp env).1 +:+ ".processing")).2
    as [size |] eqn:Hleft; [| discriminate].
  apply negb_true_iff, Z.eqb_neq in Hok7.
  apply negb_true_iff, Nat.eqb_neq in Hok2.
  exists size. split; [reflexivity |].
  unfold run_handler, handlerUploadVideo. cbv zeta.
  rewrite H, Hok17, Hok16, Hok15, Hok14, Hok13, Hok12, Hok11, Hok10, Hok9, Hok1.
  destruct (String.eqb (UserID (GetVideo (db cfg) (uuid_Parse env (pathValue_videoID env)).1).1)
              (auth_ValidateJWT env (auth_GetBearerToken env).1 (jwtSecret cfg)).1).
  all: rewrite String.eqb_refl.
  all: unfold respondWithError, respondWithJSON;
         unfold bind, when, ret, return_, act, call, defer;
         cbn [notnil negb fst snd world deferred].
  all: rewrite (processVideoForFastStart_ok env _ _ size Hok8 Hleft Hok7 Hok6);
         cbn [notnil negb fst snd world deferred].
  all: rewrite Hok5; cbn [notnil negb fst snd world deferred].
  all: rewrite (getVideoAspectRatio_ok env _ _ Hok4 Hok3)
         by (intros Hnil; now rewrite Hnil in Hok2);
         cbn [notnil negb fst snd world deferred].
  all: rewrite Hok0, Hok; cbn [notnil negb fst snd world deferred].
  all: cbv beta iota zeta
         delta [fold_left run_deferred os_Remove emit with_files events files
                videoThumbnails].
  all: f_equal; rewrite <- ?app_assoc; reflexivity.
Qed.

Lemma handlerUploadVideo_success_events (cfg : apiConfig) (env : Env) (w : World) :
  upload_succeeds cfg env = true ->
  events (run_handler (handlerUploadVideo cfg env) w)
  = (events w ++ ownership_response cfg env ++ pipeline_events cfg env)%list.
Proof.
  intros H. destruct (handlerUploadVideo_success_world cfg env w H) as (size & _ & ->).
  reflexivity.
Qed.

(** After a run in which every step succeeds, neither the staged file nor
    the transcoded file is on disk. *)
Lemma handlerUploadVideo_success_cleanup (cfg : apiConfig) (env : Env) (w : World) :
  upload_succeeds cfg env = true ->
  files (run_handler (handlerUploadVideo cfg env) w) !! staged_path env = None
  /\ files (run_handler (handlerUploadVideo cfg env) w) !! transcoded_path env = None.
Proof.
  intros H. destruct (handlerUploadVideo_success_world cfg env w H) as (size & _ & ->).
  cbn [files]. split.
  - apply lookup_delete_eq.
  - rewrite lookup_delete. destruct (decide _); [reflexivity |].
    apply lookup_delete_eq.
Qed.

Lemma db_updates_app (xs ys : list Event) :
  db_updates (xs ++ ys) = (db_updates xs ++ db_updates ys)%list.
Proof. apply flat_map_app. Qed.

Lemma s3_puts_app (xs ys : list Event) :
  s3_puts (xs ++ ys) = (s3_puts xs ++ s3_puts ys)%list.
Proof. apply flat_map_app. Qed.

Lemma ownership_response_silent (cfg : apiConfig) (env : Env) :
  db_updates (ownership_response cfg env) = []
  /\ s3_puts (ownership_response cfg env) = [].
Proof.
  unfold ownership_response.
  destruct (String.eqb _ _); split; reflexivity.
Qed.

Lemma length_append (a b : string) :
  String.length (a +:+ b) = (String.length a + String.length b)%nat.
Proof.
  induction a as [| c a IH]; simpl; [reflexivity | now rewrite IH].
Qed.

(** The URL that [getObjectURL] builds is never the comma-joined pair. *)
Lemma getObjectURL_not_comma_pair (cfg : apiConfig) (key : string) :
  getObjectURL cfg key <> s3Bucket cfg +:+ "," +:+ key.
Proof.
  intros Heq. apply (f_equal String.length) in Heq.
  unfold getObjectURL in Heq. rewrite !length_append in Heq. simpl in Heq. lia.
Qed.

(** ** What the upload handler persists *)

(** C1 (as amended).  After an upload in which every step succeeds, the
    object is PUT under <aspect>/<random name>, and the one record handed
    to the database has as VideoURL the URL
    https://<bucket>.s3.<region>.amazonaws.com/<key> built by
    [getObjectURL]; that value is never the comma-joined "<bucket>,<key>". *)
Theorem handlerUploadVideo_persists_object_url
    (cfg : apiConfig) (env : Env) (w : World) :
  upload_succeeds cfg env = true ->
  let w' := run_handler (handlerUploadVideo cfg env) w in
  let key := upload_key env in
  let url := "https://" +:+ s3Bucket cfg +:+ ".s3." +:+ s3Region cfg
               +:+ ".amazonaws.com/" +:+ key in
  s3_puts (events w') = (s3_puts (events w) ++ [(s3Bucket cfg, key)])%list
  /\ db_updates (events w')
     = (db_updates (events w)
          ++ [set_VideoURL (Some url) (request_video cfg env)])%list
  /\ url = getObjectURL cfg key
  /\ url <> s3Bucket cfg +:+ "," +:+ key.
Proof.
  intros H. cbv zeta.
  rewrite (handlerUploadVideo_success_events cfg env w H).
  rewrite !db_updates_app, !s3_puts_app.
  destruct (ownership_response_silent cfg env) as [-> ->].
  repeat split.
  apply getObjectURL_not_comma_pair.
Qed.

(** C1, witness: the sample upload. *)
Lemma handlerUploadVideo_persists_object_url_witness :
  upload_succeeds Sample.cfg Sample.env = true
  /\ db_updates (events (run_handler (handlerUploadVideo Sample.cfg Sample.env)
                           Sample.empty_world))
     = [set_VideoURL
          (Some "https://tubely.s3.us-east-2.amazonaws.com/landscape/abc123.mp4")
          Sample.video].
Proof.
  split; [reflexivity |].
  exact (proj1 (proj2 (handlerUploadVideo_persists_object_url
                         Sample.cfg Sample.env Sample.empty_world eq_refl))).
Defined.

(** C1, counterexample: the sample upload succeeds at every step, the
    object goes to bucket "tubely" under key "landscape/abc123.mp4", and
    the VideoURL written is not "tubely,landscape/abc123.mp4". *)
Lemma handlerUploadVideo_url_not_comma_joined :
  upload_succeeds Sample.cfg Sample.env = true
  /\ s3_puts (events (run_handler (handlerUploadVideo Sample.cfg Sample.env)
                        Sample.empty_world))
     = [("tubely", "landscape/abc123.mp4")]
  /\ map VideoURL
       (db_updates (events (run_handler (handlerUploadVideo Sample.cfg Sample.env)
                              Sample.empty_world)))
     = [Some "https://tubely.s3.us-east-2.amazonaws.com/landscape/abc123.mp4"]
  /\ map VideoURL
       (db_updates (events (run_handler (handlerUploadVideo Sample.cfg Sample.env)
                              Sample.empty_world)))
     <> [Some ("tubely" +:+ "," +:+ "landscape/abc123.mp4")].
Proof.
  repeat split; try reflexivity. vm_compute. discriminate.
Qed.

(** ** Ownership *)

(** C2.  When the authenticated user is not the owner and every later
    step succeeds, the handler writes the 401 and then runs the whole
    pipeline all the same: the file is staged, transcoded and probed, the
    object is PUT and the record is updated. *)
Theorem handlerUploadVideo_unauthorized_continues
    (cfg : apiConfig) (env : Env) (w : World) :
  upload_succeeds cfg env = true ->
  UserID (request_video cfg env) <> request_user cfg env ->
  let w' := run_handler (handlerUploadVideo cfg env) w in
  events w'
  = (events w
       ++ EvRespondError StatusUnauthorized "Not authorized to update video" None
       :: pipeline_events cfg env)%list
  /\ s3_puts (events w')
     = (s3_puts (events w) ++ [(s3Bucket cfg, upload_key env)])%list
  /\ db_updates (events w')
     = (db_updates (events w)
          ++ [set_VideoURL (Some (getObjectURL cfg (upload_key env)))
                (request_video cfg env)])%list.
Proof.
  intros H Hother. cbv zeta.
  rewrite (handlerUploadVideo_success_events cfg env w H).
  unfold ownership_response.
  apply String.eqb_neq in Hother. rewrite Hother.
  rewrite !db_updates_app, !s3_puts_app.
  repeat split.
Qed.

(** C2, witness: user-2 uploads to a video of user-1. *)
Lemma handlerUploadVideo_unauthorized_continues_witness :
  UserID (request_video Sample.cfg intruder_env) = "user-1"
  /\ request_user Sample.cfg intruder_env = "user-2"
  /\ events (run_handler (handlerUploadVideo Sample.cfg intruder_env)
               Sample.empty_world)
     = EvRespondError 401 "Not authorized to update video" None
       :: pipeline_events Sample.cfg intruder_env
  /\ s3_puts (events (run_handler (handlerUploadVideo Sample.cfg intruder_env)
                        Sample.empty_world))
     = [("tubely", "landscape/abc123.mp4")].
Proof.
  split; [reflexivity | split; [reflexivity |]].
  pose proof (handlerUploadVideo_unauthorized_continues
                Sample.cfg intruder_env Sample.empty_world eq_refl
                ltac:(vm_compute; discriminate)) as (Hev & Hput & _).
  split; [exact Hev | exact Hput].
Defined.

(** ** Cleanup of temporary files *)

(** C3.  When the transcoding step fails after ffmpeg has written its
    output (an empty file, or a partial file on a non-zero exit), the
    handler answers 500 and returns before the removal of the output is
    deferred: the staged file is deleted, the transcoded file stays on
    disk and no removal of it is ever attempted. *)
Theorem handlerUploadVideo_leaves_transcoded_file :
  let out := "/tmp/tubely-upload_1.mp4.processing" in
  let w1 := run_handler (handlerUploadVideo Sample.cfg empty_output_env)
              Sample.empty_world in
  let w2 := run_handler (handlerUploadVideo Sample.cfg failed_run_env)
              Sample.empty_world in
  transcoded_path empty_output_env = out
  /\ files w1 !! staged_path empty_output_env = None
  /\ files w1 !! out = Some 0
  /\ In (EvRespondError 500 "Couldn't process video" (Some "processed file is empty"))
       (events w1)
  /\ ~ In (EvRemove out) (events w1)
  /\ files w2 !! staged_path failed_run_env = None
  /\ files w2 !! out = Some 5
  /\ ~ In (EvRemove out) (events w2).
Proof.
  cbv zeta.
  repeat split; try (vm_compute; reflexivity).
  - vm_compute. tauto.
  - vm_compute. intuition discriminate.
  - vm_compute. intuition discriminate.
Qed.

(** * Further properties of the asset helpers *)

(** ** Strings *)

Lemma count_byte_app (c : ascii) (a b : string) :
  count_byte c (a +:+ b) = (count_byte c a + count_byte c b)%nat.
Proof.
  induction a as [| d a IH]; simpl; [reflexivity |].
  rewrite IH. lia.
Qed.

Lemma append_cancel_l (p a b : string) : p +:+ a = p +:+ b -> a = b.
Proof.
  induction p as [| c p IH]; simpl; [auto |].
  intros H. injection H as H. auto.
Qed.

Lemma append_cancel_r (a b c : string) : a +:+ c = b +:+ c -> a = b.
Proof.
  revert b. induction a as [| x a IH]; intros [| y b] H; simpl in H.
  - reflexivity.
  - apply (f_equal String.length) in H.
    rewrite ?length_append in H. simpl in H. rewrite ?length_append in H. lia.
  - apply (f_equal String.length) in H.
    rewrite ?length_append in H. simpl in H. rewrite ?length_append in H. lia.
  - injection H as -> H. f_equal. auto.
Qed.

Lemma path_not_processing (path : string) : path <> path +:+ ".processing".
Proof.
  intros H. apply (f_equal String.length) in H.
  rewrite length_append in H. simpl in H. lia.
Qed.

(** ** Media types and object names *)

(** X1.  A media type "type/subtype", neither part holding a slash, has
    the extension ".subtype". *)
Theorem mediaTypeToExtension_subtype (type subtype : string) :
  count_byte slash type = O ->
  count_byte slash subtype = O ->
  mediaTypeToExtension (type +:+ "/" +:+ subtype) = "." +:+ subtype.
Proof.
  intros Ht Hs. unfold mediaTypeToExtension.
  change (type +:+ "/" +:+ subtype) with (type +:+ String slash subtype).
  rewrite strings_Split_app by assumption.
  rewrite strings_Split_no_sep by assumption.
  reflexivity.
Qed.

(** X1, witness: "video/mp4" gives ".mp4". *)
Lemma mediaTypeToExtension_subtype_witness :
  mediaTypeToExtension "video/mp4" = ".mp4".
Proof.
  exact (mediaTypeToExtension_subtype "video" "mp4" eq_refl eq_refl).
Defined.

(** X2.  A media type that does not hold exactly one slash has the
    fallback extension ".bin". *)
Theorem mediaTypeToExtension_fallback (mediaType : string) :
  count_byte slash mediaType <> 1%nat ->
  mediaTypeToExtension mediaType = ".bin".
Proof.
  intros H. unfold mediaTypeToExtension.
  rewrite strings_Split_length.
  destruct (Nat.eqb_spec (S (count_byte slash mediaType)) 2) as [Heq | Hne];
    [lia | reflexivity].
Qed.

(** X2, witness: two slashes. *)
Lemma mediaTypeToExtension_fallback_witness :
  mediaTypeToExtension "application/vnd/x" = ".bin".
Proof.
  apply (mediaTypeToExtension_fallback "application/vnd/x").
  vm_compute. lia.
Defined.

(** X3.  For one media type, names generated from two ids are equal only
    when the ids are: the name is the id followed by the extension. *)
Theorem generateRandomNameWithExtensionType_injective (id1 id2 mediaType : string) :
  generateRandomNameWithExtensionType id1 mediaType
  = generateRandomNameWithExtensionType id2 mediaType ->
  id1 = id2.
Proof.
  unfold generateRandomNameWithExtensionType. apply append_cancel_r.
Qed.

(** X3, witness. *)
Lemma generateRandomNameWithExtensionType_injective_witness : "abc" = "abc".
Proof.
  exact (generateRandomNameWithExtensionType_injective "abc" "abc" "video/mp4" eq_refl).
Defined.

(** X4.  Under one configuration, two keys with the same object URL are
    the same key. *)
Theorem getObjectURL_injective (cfg : apiConfig) (key1 key2 : string) :
  getObjectURL cfg key1 = getObjectURL cfg key2 -> key1 = key2.
Proof.
  unfold getObjectURL. intros H.
  repeat (apply append_cancel_l in H). exact H.
Qed.

(** X4, witness. *)
Lemma getObjectURL_injective_witness : "landscape/a.mp4" = "landscape/a.mp4".
Proof.
  exact (getObjectURL_injective Sample.cfg "landscape/a.mp4" "landscape/a.mp4" eq_refl).
Defined.

(** ** Aspect classification, continued *)

Lemma calculateAspectRatio_closed (width height : Z) :
  calculateAspectRatio width height = "landscape"
  \/ calculateAspectRatio width height = "portrait"
  \/ calculateAspectRatio width height = "other".
Proof.
  unfold calculateAspectRatio.
  destruct (_ =? _); [auto |]. destruct (_ =? _); auto.
Qed.

(** X5.  Turning a video by a quarter swaps the classes: for dimensions
    in [0, 2^59), a portrait pair transposed is landscape, and a
    landscape pair of width at least 2 transposed is portrait. *)
Theorem calculateAspectRatio_transpose (width height : Z) :
  0 <= width < 2 ^ 59 -> 0 <= height < 2 ^ 59 ->
  (calculateAspectRatio width height = "portrait" ->
     calculateAspectRatio height width = "landscape")
  /\ (calculateAspectRatio width height = "landscape" -> 2 <= width ->
        calculateAspectRatio height width = "portrait").
Proof.
  intros Hw Hh. split.
  - intros Hp. apply (portrait_iff_band width height Hw Hh) in Hp.
    apply (landscape_iff_band height width Hh Hw).
    unfold landscape_band, portrait_band in *. tauto.
  - intros Hl Hbig. apply (landscape_iff_band width height Hw Hh) in Hl.
    apply (portrait_iff_band height width Hh Hw).
    unfold landscape_band, portrait_band in *. lia.
Qed.

(** X5, witness: 1080x1920 is portrait, 1920x1080 is landscape. *)
Lemma calculateAspectRatio_transpose_witness :
  calculateAspectRatio 1920 1080 = "landscape"
  /\ calculateAspectRatio 1080 1920 = "portrait".
Proof.
  pose proof (calculateAspectRatio_transpose 1080 1920 ltac:(lia) ltac:(lia)) as [H1 _].
  pose proof (calculateAspectRatio_transpose 1920 1080 ltac:(lia) ltac:(lia)) as [_ H2].
  split.
  - apply H1. reflexivity.
  - apply H2; [reflexivity | lia].
Defined.

(** ** Probing and transcoding *)

(** X6.  [getVideoAspectRatio] fails exactly when ffprobe's run fails, its
    output does not decode, or it lists no stream; then the result is the
    empty string.  Otherwise the class is that of the first stream alone.
    In every case the files are left as they were. *)
Theorem getVideoAspectRatio_error_iff (env : Env) (path : string) (w : World) :
  let r := getVideoAspectRatio env path w in
  let decoded := json_Unmarshal env (ffprobe_Run env path).2 in
  (r.1.2 <> None
     <-> (ffprobe_Run env path).1.1 <> None \/ decoded.2 <> None \/ decoded.1 = [])
  /\ (r.1.2 <> None -> r.1.1 = EmptyString)
  /\ (forall width height more,
        r.1.2 = None -> decoded.1 = (width, height) :: more ->
        r.1.1 = calculateAspectRatio width height)
  /\ files r.2 = files w.
Proof.
  cbv zeta. unfold getVideoAspectRatio.
  destruct (ffprobe_Run env path) as [[run_err stderr] stdout]. cbn [fst snd].
  destruct run_err as [e |]; cbn [notnil fst snd].
  { repeat split; try congruence; auto. }
  destruct (json_Unmarshal env stdout) as [streams [e |]]; cbn [notnil fst snd].
  { repeat split; try congruence; auto. }
  destruct streams as [| [width height] more]; cbn [fst snd].
  - repeat split; try congruence; auto.
  - repeat split; try congruence;
      try (intros [H | [H | H]]; congruence);
      try (intros width' height' more' _ H; injection H as <- <- _; reflexivity).
Qed.

(** X7.  [processVideoForFastStart] writes at most the output path: the
    source file and every other file are as before, whatever the outcome. *)
Theorem processVideoForFastStart_frame (env : Env) (path : string) (w : World) :
  let r := processVideoForFastStart env path w in
  files r.2 !! path = files w !! path
  /\ (forall other, other <> path +:+ ".processing" ->
        files r.2 !! other = files w !! other)
  /\ events r.2 = (events w ++ [EvFfmpeg path (path +:+ ".processing")])%list.
Proof.
  cbv zeta.
  assert (Hframe : forall other, other <> path +:+ ".processing" ->
            files (processVideoForFastStart env path w).2 !! other
            = files w !! other).
  { intros other Hother. unfold processVideoForFastStart.
    destruct (ffmpeg_Run env path (path +:+ ".processing")) as [[run_err stderr] left].
    cbn [fst snd].
    assert (Hfs : (match left with
                   | Some size => <[path +:+ ".processing" := size]> (files w)
                   | None => files w
                   end) !! other = files w !! other).
    { destruct left; [apply lookup_insert_ne; congruence | reflexivity]. }
    destruct (notnil run_err); [exact Hfs |].
    destruct (notnil _); [exact Hfs |].
    destruct (_ =? 0); exact Hfs. }
  split; [apply Hframe, path_not_processing |].
  split; [exact Hframe |].
  unfold processVideoForFastStart.
  destruct (notnil _); [reflexivity |].
  destruct (notnil _); [reflexivity |].
  destruct (_ =? 0); reflexivity.
Qed.

(** X8.  When [processVideoForFastStart] returns no error, the path it
    returns is <path>.processing and that file is on disk with a size
    other than zero. *)
Theorem processVideoForFastStart_output_exists
    (env : Env) (path : string) (w : World) :
  let r := processVideoForFastStart env path w in
  r.1.2 = None ->
  r.1.1 = path +:+ ".processing"
  /\ exists size, files r.2 !! r.1.1 = Some size /\ size <> 0.
Proof.
  cbv zeta. unfold processVideoForFastStart, os_Stat.
  destruct (ffmpeg_Run env path (path +:+ ".processing")) as [[run_err stderr] left].
  cbn [fst snd].
  destruct run_err as [e |]; cbn [notnil fst snd]; [discriminate |].
  destruct (os_Stat_fault env (path +:+ ".processing")) as [e |];
    cbn [notnil fst snd]; [discriminate |].
  match goal with
  | |- context [files ?w1 !! ?p] => destruct (files w1 !! p) as [size |] eqn:Hlook
  end; cbn [notnil fst snd]; [| discriminate].
  destruct (Z.eqb_spec size 0) as [-> | Hsize]; cbn [fst snd]; [discriminate |].
  intros _. split; [reflexivity |]. exists size. split; assumption.
Qed.

(** X8, witness: ffmpeg leaves 9 bytes. *)
Lemma processVideoForFastStart_output_exists_witness :
  exists size,
    files (processVideoForFastStart Sample.env Sample.tmp Sample.empty_world).2
      !! (processVideoForFastStart Sample.env Sample.tmp Sample.empty_world).1.1
    = Some size /\ size <> 0.
Proof.
  exact (proj2 (processVideoForFastStart_output_exists
                  Sample.env Sample.tmp Sample.empty_world eq_refl)).
Defined.

(** ** Presigned URLs, continued *)

(** X9.  When the signing call is reached and succeeds, the video comes
    back with the signed URL as its VideoURL and every other field as it
    was, without an error. *)
Theorem dbVideoToSignedVideo_signed_fields
    (cfg : apiConfig) (video : Video) (url : string) :
  VideoURL video = Some url ->
  (1 <= count_byte comma url)%nat ->
  let parts := strings_Split url comma in
  let signed := PresignGetObject (s3Client cfg)
                  (nth 0 parts EmptyString) (nth 1 parts EmptyString)
                  (10 * time_Minute) in
  signed.2 = None ->
  let r := dbVideoToSignedVideo cfg video in
  r.2 = None
  /\ VideoURL r.1 = Some signed.1
  /\ ID r.1 = ID video
  /\ ThumbnailURL r.1 = ThumbnailURL video
  /\ Title r.1 = Title video
  /\ Description r.1 = Description video
  /\ UserID r.1 = UserID video.
Proof.
  intros Hurl Hcount. cbv zeta. intros Hsign.
  pose proof (strings_Split_length url comma) as Hlen.
  destruct (strings_Split url comma) as [| bucket [| key rest]] eqn:Hsplit;
    simpl in Hlen; try lia.
  rewrite (dbVideoToSignedVideo_signs cfg video url bucket key rest Hurl Hsplit).
  unfold signed_result. simpl in Hsign. rewrite Hsign.
  repeat split.
Qed.

(** X9, witness: the sample client signs "tubely,landscape/abc123.mp4". *)
Lemma dbVideoToSignedVideo_signed_fields_witness :
  VideoURL (dbVideoToSignedVideo Sample.cfg
              (set_VideoURL (Some "tubely,landscape/abc123.mp4") Sample.video)).1
  = Some "https://signed.example/tubely/landscape/abc123.mp4?sig=1".
Proof.
  exact (proj1 (proj2 (dbVideoToSignedVideo_signed_fields Sample.cfg
                         (set_VideoURL (Some "tubely,landscape/abc123.mp4")
                            Sample.video)
                         "tubely,landscape/abc123.mp4" eq_refl
                         ltac:(vm_compute; lia) eq_refl))).
Defined.

(** X10.  A VideoURL written as bucket "," key, with no comma in the
    bucket nor in the key, is read back as exactly that bucket and that
    key, and they are signed for ten minutes. *)
Theorem dbVideoToSignedVideo_pair_roundtrip
    (cfg : apiConfig) (video : Video) (bucket key : string) :
  count_byte comma bucket = O ->
  count_byte comma key = O ->
  VideoURL video = Some (bucket +:+ "," +:+ key) ->
  strings_Split (bucket +:+ "," +:+ key) comma = [bucket; key]
  /\ dbVideoToSignedVideo cfg video = signed_result cfg video bucket key
  /\ 10 * time_Minute = 600 * 1000000000.
Proof.
  intros Hb Hk Hurl.
  assert (Hsplit : strings_Split (bucket +:+ "," +:+ key) comma = [bucket; key]).
  { change (bucket +:+ "," +:+ key) with (bucket +:+ String comma key).
    rewrite strings_Split_app by assumption.
    now rewrite strings_Split_no_sep by assumption. }
  split; [exact Hsplit |]. split; [| reflexivity].
  eapply dbVideoToSignedVideo_signs; eassumption.
Qed.

(** X10, witness: the pair "mybucket", "myvideo.mp4". *)
Lemma dbVideoToSignedVideo_pair_roundtrip_witness :
  strings_Split ("mybucket" +:+ "," +:+ "myvideo.mp4") comma
  = ["mybucket"; "myvideo.mp4"].
Proof.
  exact (proj1 (dbVideoToSignedVideo_pair_roundtrip Sample.cfg
                  (set_VideoURL (Some "mybucket,myvideo.mp4") Sample.video)
                  "mybucket" "myvideo.mp4" eq_refl eq_refl eq_refl)).
Defined.

Lemma filepath_Join_commas (a b : string) :
  count_byte comma a = O -> count_byte comma b = O ->
  count_byte comma (filepath_Join a b) = O.
Proof.
  intros Ha Hb. unfold filepath_Join.
  destruct a as [| c a]; [exact Hb |].
  destruct b as [| d b]; [exact Ha |].
  rewrite !count_byte_app. rewrite Ha, Hb. reflexivity.
Qed.

(** X11.  The URL that the upload handler stores is not one that
    [dbVideoToSignedVideo] expands: when the bucket, the region and the
    random id hold no comma, the stored record, for any of the three
    aspect classes, comes back unchanged and unsigned. *)
Theorem dbVideoToSignedVideo_ignores_object_url
    (cfg : apiConfig) (video : Video) (width height : Z) (id : string) :
  count_byte comma (s3Bucket cfg) = O ->
  count_byte comma (s3Region cfg) = O ->
  count_byte comma id = O ->
  let key := object_key (calculateAspectRatio width height) id in
  let stored := set_VideoURL (Some (getObjectURL cfg key)) video in
  dbVideoToSignedVideo cfg stored = (stored, None).
Proof.
  intros Hb Hr Hid. cbv zeta. unfold dbVideoToSignedVideo. cbn [VideoURL set_VideoURL].
  rewrite strings_Split_no_sep; [reflexivity |].
  unfold getObjectURL. rewrite !count_byte_app, Hb, Hr.
  assert (Hkey : count_byte comma
                   (object_key (calculateAspectRatio width height) id) = O).
  { unfold object_key. apply filepath_Join_commas.
    - destruct (calculateAspectRatio_closed width height) as [-> | [-> | ->]];
        reflexivity.
    - unfold generateRandomNameWithExtensionType.
      rewrite count_byte_app, Hid. reflexivity. }
  rewrite Hkey. reflexivity.
Qed.

(** X11, witness: the record stored by the sample upload. *)
Lemma dbVideoToSignedVideo_ignores_object_url_witness :
  dbVideoToSignedVideo Sample.cfg
    (set_VideoURL
       (Some "https://tubely.s3.us-east-2.amazonaws.com/landscape/abc123.mp4")
       Sample.video)
  = (set_VideoURL
       (Some "https://tubely.s3.us-east-2.amazonaws.com/landscape/abc123.mp4")
       Sample.video, None).
Proof.
  exact (dbVideoToSignedVideo_ignores_object_url Sample.cfg Sample.video
           1920 1080 "abc123" eq_refl eq_refl eq_refl).
Defined.

(** * Every run of the video upload handler *)

Lemma processVideoForFastStart_world (env : Env) (path : string) (w : World) :
  (processVideoForFastStart env path w).2
  = emit (EvFfmpeg path (path +:+ ".processing"))
      (with_files (fun fs => match (ffmpeg_Run env path (path +:+ ".processing")).2 with
                             | Some size => <[path +:+ ".processing" := size]> fs
                             | None => fs
                             end) w).
Proof.
  unfold processVideoForFastStart.
  destruct (notnil _); [reflexivity |].
  destruct (notnil _); [reflexivity |].
  destruct (_ =? 0); reflexivity.
Qed.

Lemma getVideoAspectRatio_world (env : Env) (path : string) (w : World) :
  (getVideoAspectRatio env path w).2 = emit (EvFfprobe path) w.
Proof.
  unfold getVideoAspectRatio.
  destruct (notnil _); [reflexivity |].
  destruct (notnil _); [reflexivity |].
  destruct (json_Unmarshal env _).1 as [| [width height] more]; reflexivity.
Qed.

Lemma getVideoAspectRatio_first_stream (env : Env) (path : string) (w : World) :
  (getVideoAspectRatio env path w).1.2 = None ->
  exists width height more,
    (json_Unmarshal env (ffprobe_Run env path).2).1 = (width, height) :: more
    /\ (getVideoAspectRatio env path w).1.1 = calculateAspectRatio width height.
Proof.
  unfold getVideoAspectRatio.
  destruct (notnil _); [discriminate |].
  destruct (notnil _); [discriminate |].
  destruct (json_Unmarshal env _).1 as [| [width height] more]; [discriminate |].
  intros _. exists width, height, more. split; reflexivity.
Qed.

Lemma processVideoForFastStart_path (env : Env) (path : string) (w : World) :
  (processVideoForFastStart env path w).1.2 = None ->
  (processVideoForFastStart env path w).1.1 = path +:+ ".processing".
Proof.
  unfold processVideoForFastStart.
  destruct (notnil _); [discriminate |].
  destruct (notnil _); [discriminate |].
  destruct (_ =? 0); [discriminate | reflexivity].
Qed.

Lemma lookup_leftover (fs : gmap string Z) (path out : string) (left : option Z) :
  path <> out ->
  (match left with Some size => <[out := size]> fs | None => fs end) !! path
  = fs !! path.
Proof.
  intros Hne. destruct left; [apply lookup_insert_ne; congruence | reflexivity].
Qed.

(** Reduction of the handler combinators once a test is decided. *)
Ltac hstep := cbn [notnil negb fst snd world deferred].

Ltac hopen handler :=
  unfold run_handler, handler; cbv zeta;
  unfold respondWithError, respondWithJSON;
  unfold bind, when, ret, return_, act, call, defer; hstep.

Ltac hfinal :=
  cbv beta iota zeta
    delta [fold_left run_deferred os_Remove emit with_files with_thumbnails
           events files videoThumbnails];
  rewrite <- ?app_assoc; cbn [app].

Ltac in_events :=
  cbn [In]; repeat (first [left; reflexivity | right]); fail.

Ltac only_event H :=
  cbn [In] in H;
  repeat (destruct H as [H | H]; [try discriminate H |]); try contradiction.

Ltac upload_leaf Hne :=
  hfinal; eexists _, _; split; [reflexivity |];
  unfold upload_postcondition, stored_video, put_body, upload_key, probed_aspect,
    transcoded_path, staged_path, request_video;
  split; [intros Hfresh;
          first [exact Hfresh | apply lookup_delete_eq] |];
  split; [intros Hfresh Hleft;
          first [ eexists; in_events
                | exfalso; apply Hleft;
                  rewrite ?lookup_delete_ne, ?lookup_insert_ne by exact Hne;
                  first [exact Hfresh | apply lookup_delete_eq
                        | rewrite lookup_leftover by (intros Heq; apply Hne; now rewrite Heq);
                          rewrite ?lookup_insert_ne by exact Hne; exact Hfresh ] ] |];
  split; [first [ left; split; reflexivity
                | right;
                  match goal with
                  | Hs : (json_Unmarshal _ _).1 = (?wd, ?ht) :: ?more,
                    Ho : os_Open _ _ = _ |- _ =>
                      exists wd, ht, more; split; [exact Hs |];
                      rewrite ?Hs, ?Ho; cbn [notnil];
                      split; [reflexivity |];
                      first [left; reflexivity
                            | right; split; [eassumption | reflexivity]]
                  end ] |];
  split; [intros v Hin; only_event Hin;
          try (injection Hin as <-; split; [eassumption | reflexivity]) |];
  reflexivity.

Lemma handlerUploadVideo_cases (cfg : apiConfig) (env : Env) (w : World) :
  exists new fs',
    run_handler (handlerUploadVideo cfg env) w
    = {| files := fs'; videoThumbnails := videoThumbnails w;
         events := events w ++ new |}
    /\ upload_postcondition cfg env w new fs'.
Proof.
  pose proof (path_not_processing (os_CreateTemp env).1) as Hne.
  hopen handlerUploadVideo.
  destruct (uuid_Parse env (pathValue_videoID env)).2 eqn:E1; hstep;
    [upload_leaf Hne |].
  destruct (auth_GetBearerToken env).2 eqn:E2; hstep.
  all: destruct (auth_ValidateJWT env _ _).2 eqn:E3; hstep;
    [upload_leaf Hne |].
  all: destruct (GetVideo (db cfg) _).2 eqn:E4; hstep;
    [upload_leaf Hne |].
  all: destruct (String.eqb (UserID _) _) eqn:E5; hstep.
  all: destruct (r_FormFile env "video").2 eqn:E6; hstep;
    [upload_leaf Hne |].
  all: destruct (mime_ParseMediaType env _).2 eqn:E7; hstep;
    [upload_leaf Hne |].
  all: destruct (String.eqb_spec (mime_ParseMediaType env (r_FormFile env "video").1.2).1
                   "video/mp4") as [E8 | E8]; hstep;
    [rewrite ?E8 | upload_leaf Hne].
  all: destruct (os_CreateTemp env).2 eqn:E9; hstep;
    [upload_leaf Hne |].
  all: destruct (io_Copy env).2 eqn:E10; hstep;
    [upload_leaf Hne |].
  all: destruct (file_Seek env) eqn:E11; hstep;
    [upload_leaf Hne |].
  all: rewrite !processVideoForFastStart_world.
  all: match goal with
       | |- context [(processVideoForFastStart ?e ?p ?W).1.2] =>
           destruct (processVideoForFastStart e p W).1.2 eqn:E12
       end; hstep; [upload_leaf Hne |].
  all: rewrite (processVideoForFastStart_path _ _ _ E12).
  all: destruct (os_Open env _) eqn:E13; hstep.
  all: rewrite !getVideoAspectRatio_world.
  all: match goal with
       | |- context [(getVideoAspectRatio ?e ?p ?W).1.2] =>
           destruct (getVideoAspectRatio e p W).1.2 eqn:E14
       end; hstep; [upload_leaf Hne |].
  all: destruct (getVideoAspectRatio_first_stream _ _ _ E14)
         as (width & height & more & Hstreams & Hclass);
       rewrite Hclass.
  all: destruct (rand_id env).2 eqn:E15; hstep;
    [upload_leaf Hne |].
  all: destruct (PutObject (s3Client cfg) _ _ _ _) eqn:E16; hstep;
    [upload_leaf Hne |].
  all: destruct (UpdateVideo (db cfg) _) eqn:E17; hstep;
    upload_leaf Hne.
Qed.

(** X12.  Whatever happens during an upload, the staged temporary file
    is not on disk when the handler returns, provided its name was free
    when the request came in. *)
Theorem handlerUploadVideo_removes_staged_file
    (cfg : apiConfig) (env : Env) (w : World) :
  files w !! staged_path env = None ->
  files (run_handler (handlerUploadVideo cfg env) w) !! staged_path env = None.
Proof.
  intros Hfresh.
  destruct (handlerUploadVideo_cases cfg env w) as (new & fs' & -> & Hpost).
  apply Hpost, Hfresh.
Qed.

(** X12, witness: the run in which ffmpeg fails. *)
Lemma handlerUploadVideo_removes_staged_file_witness :
  files (run_handler (handlerUploadVideo Sample.cfg failed_run_env)
           Sample.empty_world) !! staged_path failed_run_env = None.
Proof.
  exact (handlerUploadVideo_removes_staged_file Sample.cfg failed_run_env
           Sample.empty_world eq_refl).
Defined.

(** X13.  The transcoded file is left on disk only by a failure of the
    transcoding step itself: if its name was free when the request came
    in and it exists when the handler returns, the handler has answered
    "Couldn't process video". *)
Theorem handlerUploadVideo_leftover_only_on_transcode_failure
    (cfg : apiConfig) (env : Env) (w : World) :
  files w !! transcoded_path env = None ->
  files (run_handler (handlerUploadVideo cfg env) w) !! transcoded_path env <> None ->
  exists e,
    In (EvRespondError StatusInternalServerError "Couldn't process video" e)
      (events (run_handler (handlerUploadVideo cfg env) w)).
Proof.
  intros Hfresh.
  destruct (handlerUploadVideo_cases cfg env w) as (new & fs' & -> & Hpost).
  cbn [files events]. intros Hleft.
  destruct Hpost as (_ & Hout & _).
  destruct (Hout Hfresh Hleft) as [e He].
  exists e. apply in_or_app. right. exact He.
Qed.

(** X13, witness: the run in which ffmpeg leaves an empty file. *)
Lemma handlerUploadVideo_leftover_only_on_transcode_failure_witness :
  exists e,
    In (EvRespondError StatusInternalServerError "Couldn't process video" e)
      (events (run_handler (handlerUploadVideo Sample.cfg empty_output_env)
                 Sample.empty_world)).
Proof.
  apply (handlerUploadVideo_leftover_only_on_transcode_failure
           Sample.cfg empty_output_env Sample.empty_world).
  - reflexivity.
  - vm_compute. discriminate.
Defined.

Lemma upload_key_of_dimensions (env : Env) (width height : Z) (more : list (Z * Z)) :
  (json_Unmarshal env (ffprobe_Run env (staged_path env)).2).1
  = (width, height) :: more ->
  upload_key env = key_of_dimensions env width height.
Proof.
  intros Hstreams. unfold upload_key, probed_aspect, key_of_dimensions.
  rewrite Hstreams.
  change (generateRandomNameWithExtensionType (rand_id env).1 "video/mp4")
    with ((rand_id env).1 +:+ ".mp4").
  destruct (calculateAspectRatio_closed width height) as [-> | [-> | ->]];
    destruct (rand_id env).1; reflexivity.
Qed.

(** X14.  A request PUTs at most one object and updates at most one
    record, and a record is updated only after the PUT of that request
    has succeeded.  The key that was PUT is <class>/<random id>.mp4, where
    <class> is the class "landscape", "portrait" or "other" of the first
    stream that ffprobe reported; the record is the requested video with
    the object URL of that key as its VideoURL. *)
Theorem handlerUploadVideo_update_follows_put
    (cfg : apiConfig) (env : Env) (w : World) :
  exists new,
    events (run_handler (handlerUploadVideo cfg env) w) = (events w ++ new)%list
    /\ (length (s3_puts new) <= 1)%nat
    /\ (length (db_updates new) <= 1)%nat
    /\ forall v, In v (db_updates new) ->
         exists width height more,
           (json_Unmarshal env (ffprobe_Run env (staged_path env)).2).1
           = (width, height) :: more
           /\ (calculateAspectRatio width height = "landscape"
               \/ calculateAspectRatio width height = "portrait"
               \/ calculateAspectRatio width height = "other")
           /\ s3_puts new
              = [(s3Bucket cfg,
                  calculateAspectRatio width height +:+ "/" +:+ (rand_id env).1
                    +:+ ".mp4")]
           /\ PutObject (s3Client cfg) (s3Bucket cfg)
                (calculateAspectRatio width height +:+ "/" +:+ (rand_id env).1
                   +:+ ".mp4")
                (put_body env) "video/mp4" = None
           /\ v = set_VideoURL
                    (Some (getObjectURL cfg
                             (calculateAspectRatio width height +:+ "/"
                                +:+ (rand_id env).1 +:+ ".mp4")))
                    (request_video cfg env).
Proof.
  destruct (handlerUploadVideo_cases cfg env w) as (new & fs' & -> & Hpost).
  exists new. split; [reflexivity |].
  destruct Hpost as (_ & _ & Hstore & _).
  destruct Hstore
    as [[-> ->] | (width & height & more & Hstreams & -> & [-> | [Hput ->]])];
    cbn [length In].
  - repeat split; try lia; intros v [].
  - repeat split; try lia; intros v [].
  - repeat split; try lia. intros v [<- | []].
    pose proof (upload_key_of_dimensions env width height more Hstreams) as Hkey.
    unfold key_of_dimensions in Hkey. unfold stored_video.
    rewrite Hkey in *.
    exists width, height, more.
    repeat split; try assumption. apply calculateAspectRatio_closed.
Qed.

(** X15.  The handler answers 200 only with the record it has just
    handed to the database, and only when that update returned no error. *)
Theorem handlerUploadVideo_ok_only_after_update
    (cfg : apiConfig) (env : Env) (w : World) :
  exists new,
    events (run_handler (handlerUploadVideo cfg env) w) = (events w ++ new)%list
    /\ forall v, In (EvRespondJSON StatusOK v) new ->
         UpdateVideo (db cfg) v = None /\ db_updates new = [v].
Proof.
  destruct (handlerUploadVideo_cases cfg env w) as (new & fs' & -> & Hpost).
  exists new. split; [reflexivity |]. apply Hpost.
Qed.

(** X16.  The handler never returns silently: every run writes at least
    one response, unless it panics on the random source. *)
Theorem handlerUploadVideo_always_answers
    (cfg : apiConfig) (env : Env) (w : World) :
  exists new,
    events (run_handler (handlerUploadVideo cfg env) w) = (events w ++ new)%list
    /\ (existsb answers new = true \/ existsb panics new = true)
    /\ videoThumbnails (run_handler (handlerUploadVideo cfg env) w)
       = videoThumbnails w.
Proof.
  destruct (handlerUploadVideo_cases cfg env w) as (new & fs' & -> & Hpost).
  exists new. split; [reflexivity |]. split; [| reflexivity].
  destruct Hpost as (_ & _ & _ & _ & Hans).
  apply orb_true_iff. exact Hans.
Qed.

(** ** Early exits of the video upload handler *)

(** X17.  A video id that does not parse is answered with a single 400;
    nothing else happens. *)
Theorem handlerUploadVideo_invalid_id
    (cfg : apiConfig) (env : Env) (w : World) (e : error) :
  (uuid_Parse env (pathValue_videoID env)).2 = Some e ->
  run_handler (handlerUploadVideo cfg env) w
  = emit (EvRespondError StatusBadRequest "Invalid ID" (Some e)) w.
Proof.
  intros H. hopen handlerUploadVideo. rewrite H. hstep. reflexivity.
Qed.

(** X18.  When no bearer token is found, the handler writes a 401 and
    goes on to validate the token it was given back; if that fails too,
    a second 401 is written, and nothing else happens. *)
Theorem handlerUploadVideo_missing_token
    (cfg : apiConfig) (env : Env) (w : World) (e1 e2 : error) :
  (uuid_Parse env (pathValue_videoID env)).2 = None ->
  (auth_GetBearerToken env).2 = Some e1 ->
  (auth_ValidateJWT env (auth_GetBearerToken env).1 (jwtSecret cfg)).2 = Some e2 ->
  run_handler (handlerUploadVideo cfg env) w
  = emit (EvRespondError StatusUnauthorized "Couldn't validate JWT" (Some e2))
      (emit (EvRespondError StatusUnauthorized "Couldn't find JWT" (Some e1)) w).
Proof.
  intros H1 H2 H3. hopen handlerUploadVideo. rewrite H1, H2, H3. hstep. reflexivity.
Qed.

(** X19.  A part whose media type is not video/mp4 is answered with a
    400 after the checks that precede it, and the handler returns: it
    stages, transcodes and probes nothing, PUTs nothing and updates no
    record. *)
Theorem handlerUploadVideo_wrong_media_type
    (cfg : apiConfig) (env : Env) (w : World) :
  (uuid_Parse env (pathValue_videoID env)).2 = None ->
  (auth_GetBearerToken env).2 = None ->
  (auth_ValidateJWT env (auth_GetBearerToken env).1 (jwtSecret cfg)).2 = None ->
  (GetVideo (db cfg) (uuid_Parse env (pathValue_videoID env)).1).2 = None ->
  (r_FormFile env "video").2 = None ->
  (mime_ParseMediaType env (r_FormFile env "video").1.2).2 = None ->
  (mime_ParseMediaType env (r_FormFile env "video").1.2).1 <> "video/mp4" ->
  let w' := run_handler (handlerUploadVideo cfg env) w in
  events w'
  = (events w ++ ownership_response cfg env
       ++ [EvRespondError StatusBadRequest
             "Invalid media type, only mp4 is supported" None;
           EvClose form_file_name])%list
  /\ s3_puts (events w') = s3_puts (events w)
  /\ db_updates (events w') = db_updates (events w).
Proof.
  intros H1 H2 H3 H4 H5 H6 H7. apply String.eqb_neq in H7. cbv zeta.
  assert (Hev : events (run_handler (handlerUploadVideo cfg env) w)
                = (events w ++ ownership_response cfg env
                     ++ [EvRespondError StatusBadRequest
                           "Invalid media type, only mp4 is supported" None;
                         EvClose form_file_name])%list).
  { unfold ownership_response, request_video, request_user.
    hopen handlerUploadVideo. rewrite H1, H2, H3, H4, H5, H6, H7. hstep.
    destruct (String.eqb
                (UserID (GetVideo (db cfg) (uuid_Parse env (pathValue_videoID env)).1).1)
                (auth_ValidateJWT env (auth_GetBearerToken env).1 (jwtSecret cfg)).1);
      hstep; hfinal; reflexivity. }
  rewrite Hev. split; [reflexivity |].
  rewrite !s3_puts_app, !db_updates_app.
  destruct (ownership_response_silent cfg env) as [-> ->].
  cbn. now rewrite !app_nil_r.
Qed.

(** X17, witness. *)
Lemma handlerUploadVideo_invalid_id_witness :
  events (run_handler (handlerUploadVideo Sample.cfg bad_id_env) Sample.empty_world)
  = [EvRespondError 400 "Invalid ID" (Some "invalid UUID length: 10")].
Proof.
  exact (f_equal events
           (handlerUploadVideo_invalid_id Sample.cfg bad_id_env Sample.empty_world
              "invalid UUID length: 10" eq_refl)).
Defined.

(** X18, witness. *)
Lemma handlerUploadVideo_missing_token_witness :
  events (run_handler (handlerUploadVideo Sample.cfg anonymous_env)
            Sample.empty_world)
  = [EvRespondError 401 "Couldn't find JWT" (Some "no auth header included in request");
     EvRespondError 401 "Couldn't validate JWT" (Some "token is malformed")].
Proof.
  exact (f_equal events
           (handlerUploadVideo_missing_token Sample.cfg anonymous_env
              Sample.empty_world _ _ eq_refl eq_refl eq_refl)).
Defined.

(** X19, witness: a video/webm part. *)
Lemma handlerUploadVideo_wrong_media_type_witness :
  events (run_handler (handlerUploadVideo Sample.cfg webm_env) Sample.empty_world)
  = [EvRespondError 400 "Invalid media type, only mp4 is supported" None;
     EvClose form_file_name].
Proof.
  exact (proj1 (handlerUploadVideo_wrong_media_type Sample.cfg webm_env
                  Sample.empty_world eq_refl eq_refl eq_refl eq_refl eq_refl eq_refl
                  ltac:(vm_compute; discriminate))).
Defined.

(** ** Runs of the video upload handler that reach the object store *)

Lemma handlerUploadVideo_store_world (cfg : apiConfig) (env : Env) (w : World) :
  upload_reaches_put cfg env = true ->
  exists size,
    (ffmpeg_Run env (staged_path env) (transcoded_path env)).2 = Some size
    /\ run_handler (handlerUploadVideo cfg env) w
       = {| files :=
              delete (staged_path env)
                (delete (transcoded_path env)
                   (<[transcoded_path env := size]>
                      (<[staged_path env := (io_Copy env).1]>
                         (<[staged_path env := 0]> (files w)))));
            videoThumbnails := videoThumbnails w;
            events := events w ++ ownership_response cfg env
                        ++ store_events cfg env |}.
Proof.
  intros H. unfold upload_reaches_put in H. split_succeeds H.
  repeat match goal with
         | Hx : isnil _ = true |- _ => apply isnil_None in Hx
         end.
  unfold ownership_response, store_events, open_response, put_response,
    update_response, stored_video, put_body, upload_key, probed_aspect,
    transcoded_path, staged_path, request_video, request_user in *.
  apply String.eqb_eq in Hok9.
  destruct (ffmpeg_Run env (os_CreateTemp env).1 ((os_CreateTemp env).1 +:+ ".processing")).2
    as [size |] eqn:Hleft; [| discriminate].
  apply negb_true_iff, Z.eqb_neq in Hok4.
  apply negb_true_iff, Nat.eqb_neq in Hok0.
  exists size. split; [reflexivity |].
  hopen handlerUploadVideo.
  rewrite H, Hok14, Hok13, Hok12, Hok11, Hok10, Hok9, Hok8, Hok7, Hok6, Hok.
  destruct (String.eqb (UserID (GetVideo (db cfg) (uuid_Parse env (pathValue_videoID env)).1).1)
              (auth_ValidateJWT env (auth_GetBearerToken env).1 (jwtSecret cfg)).1).
  all: rewrite String.eqb_refl; hstep.
  all: rewrite (processVideoForFastStart_ok env _ _ size Hok5 Hleft Hok4 Hok3); hstep.
  all: destruct (os_Open env ((os_CreateTemp env).1 +:+ ".processing")) eqn:Eopen; hstep.
  all: rewrite (getVideoAspectRatio_ok env _ _ Hok2 Hok1)
         by (intros Hnil; now rewrite Hnil in Hok0); hstep.
  all: destruct (PutObject (s3Client cfg) _ _ _ _) eqn:Eput; hstep.
  all: try (destruct (UpdateVideo (db cfg) _) eqn:Eupd; hstep).
  all: hfinal; f_equal.
Qed.

Lemma ownership_response_no_ok (cfg : apiConfig) (env : Env) (v : Video) :
  ~ In (EvRespondJSON StatusOK v) (ownership_response cfg env).
Proof.
  unfold ownership_response. destruct (String.eqb _ _); cbn [In]; [tauto |].
  intros [H | []]. discriminate H.
Qed.

(** X20.  When the transcoded file cannot be opened, the handler writes
    the 500 and goes on all the same: the staged file is probed and
    [PutObject] is called with a nil file.  When that PUT fails, a second
    500 follows and the handler returns: no record is updated, and both
    temporary files are removed. *)
Theorem handlerUploadVideo_open_failure_continues
    (cfg : apiConfig) (env : Env) (w : World) (e e' : error) :
  upload_reaches_put cfg env = true ->
  os_Open env (transcoded_path env) = Some e ->
  PutObject (s3Client cfg) (s3Bucket cfg) (upload_key env) None "video/mp4"
  = Some e' ->
  let w' := run_handler (handlerUploadVideo cfg env) w in
  events w'
  = (events w ++ ownership_response cfg env
       ++ [ EvCreateTemp (staged_path env);
            EvCopy (staged_path env) (io_Copy env).1;
            EvSeek (staged_path env);
            EvFfmpeg (staged_path env) (transcoded_path env);
            EvOpen (transcoded_path env);
            EvRespondError StatusInternalServerError
              "Couldn't open encoded file" (Some e);
            EvFfprobe (staged_path env);
            EvPutObject (s3Bucket cfg) (upload_key env) None "video/mp4";
            EvRespondError StatusInternalServerError
              "Issue uploading video to S3" (Some e');
            EvClose (transcoded_path env);
            EvRemove (transcoded_path env);
            EvClose (staged_path env);
            EvRemove (staged_path env);
            EvClose form_file_name ])%list
  /\ db_updates (events w') = db_updates (events w)
  /\ files w' !! staged_path env = None
  /\ files w' !! transcoded_path env = None.
Proof.
  intros H Hopen Hput. cbv zeta.
  destruct (handlerUploadVideo_store_world cfg env w H) as (size & _ & ->).
  cbn [events files].
  unfold store_events, open_response, put_response, put_body.
  rewrite Hopen. cbn [notnil]. rewrite Hput. cbn [app].
  split; [reflexivity |]. split; [| split].
  - rewrite !db_updates_app.
    destruct (ownership_response_silent cfg env) as [-> _].
    cbn. now rewrite app_nil_r.
  - apply lookup_delete_eq.
  - rewrite lookup_delete. destruct (decide _); [reflexivity |].
    apply lookup_delete_eq.
Qed.

(** X20, witness: the transcoded file cannot be read and the client
    refuses the nil body. *)
Lemma handlerUploadVideo_open_failure_continues_witness :
  events (run_handler (handlerUploadVideo strict_cfg unreadable_env)
            Sample.empty_world)
  = [ EvCreateTemp "/tmp/tubely-upload_1.mp4";
      EvCopy "/tmp/tubely-upload_1.mp4" 9;
      EvSeek "/tmp/tubely-upload_1.mp4";
      EvFfmpeg "/tmp/tubely-upload_1.mp4" "/tmp/tubely-upload_1.mp4.processing";
      EvOpen "/tmp/tubely-upload_1.mp4.processing";
      EvRespondError 500 "Couldn't open encoded file" (Some "permission denied");
      EvFfprobe "/tmp/tubely-upload_1.mp4";
      EvPutObject "tubely" "landscape/abc123.mp4" None "video/mp4";
      EvRespondError 500 "Issue uploading video to S3" (Some "invalid argument");
      EvClose "/tmp/tubely-upload_1.mp4.processing";
      EvRemove "/tmp/tubely-upload_1.mp4.processing";
      EvClose "/tmp/tubely-upload_1.mp4";
      EvRemove "/tmp/tubely-upload_1.mp4";
      EvClose form_file_name ].
Proof.
  exact (proj1 (handlerUploadVideo_open_failure_continues
                  strict_cfg unreadable_env Sample.empty_world
                  "permission denied" "invalid argument"
                  eq_refl eq_refl eq_refl)).
Defined.

(** X21.  When the record update fails after the PUT, the handler
    answers 500 and no 200; the object has been PUT and nothing removes
    it, while both temporary files are removed. *)
Theorem handlerUploadVideo_update_failure
    (cfg : apiConfig) (env : Env) (w : World) (e : error) :
  upload_reaches_store cfg env = true ->
  UpdateVideo (db cfg) (stored_video cfg env) = Some e ->
  let w' := run_handler (handlerUploadVideo cfg env) w in
  exists new,
    events w' = (events w ++ new)%list
    /\ s3_puts new = [(s3Bucket cfg, upload_key env)]
    /\ In (EvRespondError StatusInternalServerError
             "Couldn't update video information" (Some e)) new
    /\ (forall v, ~ In (EvRespondJSON StatusOK v) new)
    /\ files w' !! staged_path env = None
    /\ files w' !! transcoded_path env = None.
Proof.
  intros H Hupd. cbv zeta.
  unfold upload_reaches_store in H. apply andb_prop in H. destruct H as [H Hput].
  apply isnil_None in Hput.
  destruct (handlerUploadVideo_store_world cfg env w H) as (size & _ & ->).
  cbn [events files].
  exists (ownership_response cfg env ++ store_events cfg env)%list.
  split; [reflexivity |].
  unfold store_events, put_response, update_response. rewrite Hput, Hupd.
  rewrite !s3_puts_app.
  destruct (ownership_response_silent cfg env) as [_ ->].
  split; [| split; [| split; [| split]]].
  - unfold open_response. destruct (os_Open env _); reflexivity.
  - apply in_or_app. right.
    unfold open_response. destruct (os_Open env _); in_events.
  - intros v Hin. apply in_app_or in Hin. destruct Hin as [Hin | Hin].
    + exact (ownership_response_no_ok cfg env v Hin).
    + unfold open_response in Hin. destruct (os_Open env _); only_event Hin.
  - apply lookup_delete_eq.
  - rewrite lookup_delete. destruct (decide _); [reflexivity |].
    apply lookup_delete_eq.
Qed.

(** X21, witness: the sample upload against a database that refuses
    updates. *)
Lemma handlerUploadVideo_update_failure_witness :
  exists new,
    events (run_handler (handlerUploadVideo readonly_cfg Sample.env)
              Sample.empty_world) = ([] ++ new)%list
    /\ s3_puts new = [("tubely", "landscape/abc123.mp4")]
    /\ In (EvRespondError 500 "Couldn't update video information"
             (Some "database is locked")) new
    /\ (forall v, ~ In (EvRespondJSON 200 v) new)
    /\ files (run_handler (handlerUploadVideo readonly_cfg Sample.env)
                Sample.empty_world) !! staged_path Sample.env = None
    /\ files (run_handler (handlerUploadVideo readonly_cfg Sample.env)
                Sample.empty_world) !! transcoded_path Sample.env = None.
Proof.
  exact (handlerUploadVideo_update_failure readonly_cfg Sample.env
           Sample.empty_world "database is locked" eq_refl eq_refl).
Defined.

(** * Every run of the thumbnail upload handler *)

Ltac thumbnail_leaf :=
  hfinal; eexists _, _; split; [reflexivity |];
  unfold thumbnail_postcondition, thumbnail_id, thumbnail_entry, thumbnail_video,
    thumbnail_url;
  split; [intros id Hid;
          rewrite ?lookup_delete_ne, ?lookup_insert_ne by congruence; reflexivity |];
  split; [intros ? Hin; only_event Hin;
          try (injection Hin as <-;
               split; [reflexivity | split; [eassumption | apply lookup_insert_eq]]) |];
  split; [intros ? ? Hin Hupd; only_event Hin;
          try (injection Hin as <-;
               first [congruence | apply lookup_delete_eq]) |];
  split; [intros Hno;
          first [reflexivity | exfalso; eapply Hno; in_events] |];
  reflexivity.

Lemma handlerUploadThumbnail_cases (cfg : apiConfig) (env : Env) (w : World) :
  exists new th',
    run_handler (handlerUploadThumbnail cfg env) w
    = {| files := files w; videoThumbnails := th'; events := events w ++ new |}
    /\ thumbnail_postcondition cfg env w new th'.
Proof.
  hopen handlerUploadThumbnail.
  destruct (uuid_Parse env (pathValue_videoID env)).2 eqn:E1; hstep;
    [thumbnail_leaf |].
  destruct (auth_GetBearerToken env).2 eqn:E2; hstep; [thumbnail_leaf |].
  destruct (auth_ValidateJWT env _ _).2 eqn:E3; hstep; [thumbnail_leaf |].
  destruct (r_ParseMultipartForm env maxMemory) eqn:E4; hstep; [thumbnail_leaf |].
  destruct (r_FormFile env "thumbnail").2 eqn:E5; hstep; [thumbnail_leaf |].
  destruct (String.eqb (r_FormFile env "thumbnail").1.2 EmptyString) eqn:E6; hstep;
    [thumbnail_leaf |].
  destruct (io_ReadAll env _).2 eqn:E7; hstep.
  all: destruct (GetVideo (db cfg) _).2 eqn:E8; hstep; [thumbnail_leaf |].
  all: destruct (UpdateVideo (db cfg) _) eqn:E9; hstep; thumbnail_leaf.
Qed.

(** X22.  The thumbnail handler answers 200 only with the record it has
    just updated without error; then the thumbnail map holds the bytes
    read and the part's media type under the video id, and the record's
    ThumbnailURL is http://localhost:<port>/api/thumbnails/<video id>. *)
Theorem handlerUploadThumbnail_ok_stores
    (cfg : apiConfig) (env : Env) (w : World) :
  let w' := run_handler (handlerUploadThumbnail cfg env) w in
  exists new,
    events w' = (events w ++ new)%list
    /\ forall v, In (EvRespondJSON StatusOK v) new ->
         UpdateVideo (db cfg) v = None
         /\ ThumbnailURL v
            = Some ("http://localhost:" +:+ port cfg +:+ "/api/thumbnails/"
                      +:+ thumbnail_id env)
         /\ VideoURL v = VideoURL (GetVideo (db cfg) (thumbnail_id env)).1
         /\ videoThumbnails w' !! thumbnail_id env
            = Some {| data := (io_ReadAll env (r_FormFile env "thumbnail").1.1).1;
                      mediaType := (r_FormFile env "thumbnail").1.2 |}.
Proof.
  cbv zeta.
  destruct (handlerUploadThumbnail_cases cfg env w) as (new & th' & -> & Hpost).
  exists new. split; [reflexivity |]. intros v Hin.
  destruct Hpost as (_ & Hok & _).
  destruct (Hok v Hin) as (-> & Hupd & Hmap).
  cbn [videoThumbnails]. repeat split; assumption.
Qed.

(** X23.  When the record update is attempted and fails, the handler
    deletes the map entry of the video: the video has no thumbnail
    afterwards, also when it had one before the request. *)
Theorem handlerUploadThumbnail_rollback_erases
    (cfg : apiConfig) (env : Env) (w : World) (e : error) :
  events w = [] ->
  In (EvUpdateVideo (thumbnail_video cfg env))
    (events (run_handler (handlerUploadThumbnail cfg env) w)) ->
  UpdateVideo (db cfg) (thumbnail_video cfg env) = Some e ->
  videoThumbnails (run_handler (handlerUploadThumbnail cfg env) w)
    !! thumbnail_id env = None.
Proof.
  intros Hev Hin Hupd.
  destruct (handlerUploadThumbnail_cases cfg env w) as (new & th' & Hrun & Hpost).
  rewrite Hrun in *. cbn [events videoThumbnails] in *.
  rewrite Hev in Hin. cbn [app] in Hin.
  destruct Hpost as (_ & _ & Hfail & _).
  exact (Hfail _ _ Hin Hupd).
Qed.

(** X23, witness: the video had a thumbnail, the database refuses the
    update, and the thumbnail is gone. *)
Lemma handlerUploadThumbnail_rollback_erases_witness :
  videoThumbnails world_with_thumbnail !! "video-1"
  = Some {| data := "old"; mediaType := "image/jpeg" |}
  /\ videoThumbnails (run_handler (handlerUploadThumbnail readonly_cfg Sample.env)
                        world_with_thumbnail) !! "video-1" = None.
Proof.
  split; [reflexivity |].
  apply (handlerUploadThumbnail_rollback_erases readonly_cfg Sample.env
           world_with_thumbnail "database is locked").
  - reflexivity.
  - vm_compute. tauto.
  - reflexivity.
Defined.

(** X24.  A thumbnail request never touches the thumbnail of another
    video, leaves the whole map as it was unless it gets as far as the
    record update, and always writes a response. *)
Theorem handlerUploadThumbnail_frame
    (cfg : apiConfig) (env : Env) (w : World) :
  let w' := run_handler (handlerUploadThumbnail cfg env) w in
  (forall id, id <> thumbnail_id env ->
     videoThumbnails w' !! id = videoThumbnails w !! id)
  /\ exists new,
       events w' = (events w ++ new)%list
       /\ ((forall v, ~ In (EvUpdateVideo v) new) ->
           videoThumbnails w' = videoThumbnails w)
       /\ existsb answers new = true.
Proof.
  cbv zeta.
  destruct (handlerUploadThumbnail_cases cfg env w) as (new & th' & -> & Hpost).
  destruct Hpost as (Hother & _ & _ & Hsame & Hans).
  cbn [videoThumbnails events].
  split; [exact Hother |].
  exists new. auto.
Qed.

(** X25.  A thumbnail upload in which every step succeeds stores the
    thumbnail, updates the record and answers 200; the owner of the video
    is not compared with the authenticated user, so this holds for any
    user with a valid token. *)
Theorem handlerUploadThumbnail_success_any_user
    (cfg : apiConfig) (env : Env) (w : World) :
  (uuid_Parse env (pathValue_videoID env)).2 = None ->
  (auth_GetBearerToken env).2 = None ->
  (auth_ValidateJWT env (auth_GetBearerToken env).1 (jwtSecret cfg)).2 = None ->
  r_ParseMultipartForm env maxMemory = None ->
  (r_FormFile env "thumbnail").2 = None ->
  (r_FormFile env "thumbnail").1.2 <> EmptyString ->
  (io_ReadAll env (r_FormFile env "thumbnail").1.1).2 = None ->
  (GetVideo (db cfg) (thumbnail_id env)).2 = None ->
  UpdateVideo (db cfg) (thumbnail_video cfg env) = None ->
  let w' := run_handler (handlerUploadThumbnail cfg env) w in
  events w'
  = (events w
       ++ [EvParseMultipartForm maxMemory;
           EvUpdateVideo (thumbnail_video cfg env);
           EvRespondJSON StatusOK (thumbnail_video cfg env);
           EvClose form_file_name])%list
  /\ videoThumbnails w'
     = <[thumbnail_id env := thumbnail_entry env]> (videoThumbnails w).
Proof.
  intros H1 H2 H3 H4 H5 H6 H7 H8 H9. apply String.eqb_neq in H6. cbv zeta.
  unfold thumbnail_video, thumbnail_url, thumbnail_entry, thumbnail_id in *.
  hopen handlerUploadThumbnail.
  rewrite H1, H2, H3, H4, H5, H6, H7, H8, H9. hstep.
  hfinal. split; reflexivity.
Qed.

(** X25, witness: user-2 sets the thumbnail of a video of user-1. *)
Lemma handlerUploadThumbnail_success_any_user_witness :
  UserID (GetVideo (db Sample.cfg) (thumbnail_id intruder_env)).1 = "user-1"
  /\ (auth_ValidateJWT intruder_env "token" "secret").1 = "user-2"
  /\ videoThumbnails (run_handler (handlerUploadThumbnail Sample.cfg intruder_env)
                        Sample.empty_world) !! "video-1"
     = Some {| data := "png-bytes"; mediaType := "image/png" |}.
Proof.
  split; [reflexivity | split; [reflexivity |]].
  rewrite (proj2 (handlerUploadThumbnail_success_any_user Sample.cfg intruder_env
                    Sample.empty_world
                    eq_refl eq_refl eq_refl eq_refl eq_refl
                    ltac:(vm_compute; discriminate) eq_refl eq_refl eq_refl)).
  reflexivity.
Defined.

(** X26.  When reading the part fails and every other step succeeds, the
    handler writes the 500 and goes on all the same: the bytes read so far
    are stored as the thumbnail, the record is updated and a 200 follows. *)
Theorem handlerUploadThumbnail_read_failure_continues
    (cfg : apiConfig) (env : Env) (w : World) (e : error) :
  (uuid_Parse env (pathValue_videoID env)).2 = None ->
  (auth_GetBearerToken env).2 = None ->
  (auth_ValidateJWT env (auth_GetBearerToken env).1 (jwtSecret cfg)).2 = None ->
  r_ParseMultipartForm env maxMemory = None ->
  (r_FormFile env "thumbnail").2 = None ->
  (r_FormFile env "thumbnail").1.2 <> EmptyString ->
  (io_ReadAll env (r_FormFile env "thumbnail").1.1).2 = Some e ->
  (GetVideo (db cfg) (thumbnail_id env)).2 = None ->
  UpdateVideo (db cfg) (thumbnail_video cfg env) = None ->
  run_handler (handlerUploadThumbnail cfg env) w
  = {| files := files w;
       videoThumbnails :=
         <[thumbnail_id env := thumbnail_entry env]> (videoThumbnails w);
       events := events w
                   ++ [EvParseMultipartForm maxMemory;
                       EvRespondError StatusInternalServerError
                         "Couldn't read the file" (Some e);
                       EvUpdateVideo (thumbnail_video cfg env);
                       EvRespondJSON StatusOK (thumbnail_video cfg env);
                       EvClose form_file_name] |}.
Proof.
  intros H1 H2 H3 H4 H5 H6 H7 H8 H9. apply String.eqb_neq in H6.
  unfold thumbnail_video, thumbnail_url, thumbnail_entry, thumbnail_id in *.
  hopen handlerUploadThumbnail.
  rewrite H1, H2, H3, H4, H5, H6, H7, H8, H9. hstep.
  hfinal. reflexivity.
Qed.

(** X26, witness: the body breaks off after three bytes. *)
Lemma handlerUploadThumbnail_read_failure_continues_witness :
  videoThumbnails (run_handler (handlerUploadThumbnail Sample.cfg truncated_env)
                     Sample.empty_world) !! "video-1"
  = Some {| data := "png"; mediaType := "image/png" |}.
Proof.
  rewrite (handlerUploadThumbnail_read_failure_continues Sample.cfg truncated_env
             Sample.empty_world "unexpected EOF"
             eq_refl eq_refl eq_refl eq_refl eq_refl
             ltac:(vm_compute; discriminate) eq_refl eq_refl eq_refl).
  reflexivity.
Defined.
